(** * The jobs control API of the rclone backup scheduler

    A shallow embedding of [rclone_backup/scheduler/api.go]: the three
    handlers that [StartAPIServer] registers on its [http.ServeMux], the
    [JobSummary] view that the listing returns, and the pieces of the Go
    standard library the handlers call ([strings.TrimPrefix],
    [strings.TrimSuffix], [strconv.Atoi], [http.Error], [http.NotFound],
    the header/status/body protocol of [http.ResponseWriter]).

    Go strings are byte strings, so they are [string] here (a list of
    8-bit [ascii]); Go's [int] is the 64-bit signed integer, a [Z] with its
    wrap-around written out where arithmetic happens. *)

From stdpp Require Import base option list strings gmap pretty.
From Stdlib Require Import Ascii ZArith Lia.

Local Open Scope string_scope.
Local Open Scope Z_scope.

(** ** Package [strings] *)

Module Strings.

(** [s[lo:hi]] on a byte string. *)
Definition slice (s : string) (lo hi : nat) : string :=
  String.substring lo (hi - lo) s.

(** [len(s) >= len(prefix) && s[:len(prefix)] == prefix] *)
Definition HasPrefix (s prefix : string) : bool :=
  (String.length prefix <=? String.length s)%nat
  && bool_decide (slice s 0 (String.length prefix) = prefix).

(** [len(s) >= len(suffix) && s[len(s)-len(suffix):] == suffix] *)
Definition HasSuffix (s suffix : string) : bool :=
  (String.length suffix <=? String.length s)%nat
  && bool_decide
       (slice s (String.length s - String.length suffix) (String.length s)
        = suffix).

(** [if HasPrefix(s, prefix) { return s[len(prefix):] }; return s] *)
Definition TrimPrefix (s prefix : string) : string :=
  if HasPrefix s prefix
  then slice s (String.length prefix) (String.length s)
  else s.

(** [if HasSuffix(s, suffix) { return s[:len(s)-len(suffix)] }; return s] *)
Definition TrimSuffix (s suffix : string) : string :=
  if HasSuffix s suffix
  then slice s 0 (String.length s - String.length suffix)
  else s.

(** Does the byte [c] occur in [s]? *)
Fixpoint contains_byte (c : ascii) (s : string) : bool :=
  match s with
  | EmptyString => false
  | String a rest => bool_decide (a = c) || contains_byte c rest
  end.

(** The last byte of a string. *)
Fixpoint last_byte (s : string) : option ascii :=
  match s with
  | EmptyString => None
  | String c EmptyString => Some c
  | String _ rest => last_byte rest
  end.

End Strings.

(** ** Package [strconv] *)

Module Strconv.

(** The two sentinel errors a [*NumError] of [Atoi] can wrap. *)
Inductive NumError : Set :=
| ErrSyntax
| ErrRange.

(** A Go [error] value; [None] is [nil]. *)
Definition error : Set := option NumError.

Definition byte_val (c : ascii) : Z := Z.of_N (N_of_ascii c).

(** Arithmetic on [byte] wraps modulo 2^8, on [int] (and [int64]) modulo
    2^64 around zero. *)
Definition wrap_byte (z : Z) : Z := z mod 256.
Definition wrap_int (z : Z) : Z := (z + 2 ^ 63) mod 2 ^ 64 - 2 ^ 63.

Definition maxUint64 : Z := 2 ^ 64 - 1.

(** The loop of [Atoi]'s fast path:
<<
    for _, ch := range []byte(s) {
      ch -= '0'
      if ch > 9 { return 0, syntaxError(fnAtoi, s0) }
      n = n*10 + int(ch)
    }
>> *)
Fixpoint atoi_digits (s : string) (n : Z) : Z * error :=
  match s with
  | EmptyString => (n, None)
  | String c rest =>
      let ch := wrap_byte (byte_val c - 48) in
      if 9 <? ch then (0, Some ErrSyntax)
      else atoi_digits rest (wrap_int (n * 10 + ch))
  end.

(** [Atoi] for strings of 1 to 18 bytes. *)
Definition atoi_fast (s0 : string) : Z * error :=
  match s0 with
  | EmptyString => (0, Some ErrSyntax)
  | String c0 rest =>
      let signed := bool_decide (c0 = "-"%char) || bool_decide (c0 = "+"%char) in
      let s := if signed then rest else s0 in
      if signed && (String.length s <? 1)%nat then (0, Some ErrSyntax)
      else
        match atoi_digits s 0 with
        | (n, None) =>
            (if bool_decide (c0 = "-"%char) then wrap_int (- n) else n, None)
        | (_, Some e) => (0, Some e)
        end
  end.

(** The loop of [ParseUint(s, 10, 64)].  With base 10 every byte that is
    not a decimal digit ends in [syntaxError] (a letter is a digit value
    of at least 10, anything else hits the [default] case); [cutoff] is
    [maxUint64/10 + 1] and [maxVal] is [maxUint64]. *)
Fixpoint parseUint_digits (s : string) (n : Z) : Z * error :=
  match s with
  | EmptyString => (n, None)
  | String c rest =>
      let b := byte_val c in
      if (48 <=? b) && (b <=? 57) then
        let d := b - 48 in
        if maxUint64 / 10 + 1 <=? n then (maxUint64, Some ErrRange)
        else
          let n1 := n * 10 + d in
          if maxUint64 <? n1 then (maxUint64, Some ErrRange)
          else parseUint_digits rest n1
      else (0, Some ErrSyntax)
  end.

Definition ParseUint (s : string) : Z * error :=
  match s with
  | EmptyString => (0, Some ErrSyntax)
  | _ => parseUint_digits s 0
  end.

(** [ParseInt(s, 10, 0)]: sign, then [ParseUint], then the range check
    against [cutoff = 1 << 63]. *)
Definition ParseInt (s0 : string) : Z * error :=
  match s0 with
  | EmptyString => (0, Some ErrSyntax)
  | String c0 rest =>
      let neg := bool_decide (c0 = "-"%char) in
      let s := if bool_decide (c0 = "+"%char) || neg then rest else s0 in
      match ParseUint s with
      | (_, Some ErrSyntax) => (0, Some ErrSyntax)
      | (un, _) =>
          let cutoff := 2 ^ 63 in
          if negb neg && (cutoff <=? un) then (cutoff - 1, Some ErrRange)
          else if neg && (cutoff <? un) then (- cutoff, Some ErrRange)
          else (if neg then - un else un, None)
      end
  end.

(** [Atoi] on a 64-bit platform: the fast path for [0 < len(s) < 19],
    [ParseInt(s, 10, 0)] otherwise. *)
Definition Atoi (s : string) : Z * error :=
  let sLen := String.length s in
  if (0 <? sLen)%nat && (sLen <? 19)%nat then atoi_fast s
  else ParseInt s.

End Strconv.

(** ** Package [encoding/json] *)

Module JSON.

Local Unset Elimination Schemes.

(** The JSON values [json.Encoder] produces for the API's data.  Turning
    a value into text (escaping included) is the encoder's business; the
    API decides which value is written. *)
Inductive Value : Type :=
| Number (n : Z)
| Str (s : string)
| Array (elems : list Value)
| Object (fields : list (string * Value)).

Local Set Elimination Schemes.

Fixpoint assoc (k : string) (fields : list (string * Value)) : option Value :=
  match fields with
  | [] => None
  | (k', v) :: rest => if decide (k' = k) then Some v else assoc k rest
  end.

(** The member [k] of an object, if present. *)
Definition field (k : string) (v : Value) : option Value :=
  match v with
  | Object fields => assoc k fields
  | _ => None
  end.

(** A struct field tagged [`json:"k"`]. *)
Definition member (k : string) (v : Value) : list (string * Value) := [(k, v)].

(** A string field tagged [`json:"k,omitempty"`]: left out when empty. *)
Definition omitempty (k : string) (s : string) : list (string * Value) :=
  if decide (s = "") then [] else [(k, Str s)].

End JSON.

(** ** Package [net/http] *)

Module HTTP.

Definition StatusOK : Z := 200.
Definition StatusAccepted : Z := 202.
Definition StatusBadRequest : Z := 400.
Definition StatusNotFound : Z := 404.
Definition StatusMethodNotAllowed : Z := 405.

Definition MethodGet : string := "GET".
Definition MethodPost : string := "POST".

(** What a handler reads of [*http.Request]: [r.Method] and [r.URL.Path]. *)
Record Request : Type := {
  Method : string;
  URLPath : string;
}.

(** One [Write] to the connection: raw bytes, or the line that
    [json.NewEncoder(w).Encode(v)] writes for the value [v]. *)
Inductive Chunk : Type :=
| Bytes (s : string)
| JSONLine (v : JSON.Value).

(** The state behind an [http.ResponseWriter]: the method of the request
    it answers, the header map the handler still edits, and what has gone
    out (status line with the headers as they were when it was written,
    then the body writes in order). *)
Record ResponseWriter : Type := {
  reqMethod : string;
  header : gmap string string;
  wroteHeader : bool;
  status : Z;
  sentHeader : gmap string string;
  written : list Chunk;
}.

Definition newResponseWriter (method : string) : ResponseWriter :=
  {| reqMethod := method; header := ∅; wroteHeader := false; status := 0;
     sentHeader := ∅; written := [] |}.

(** A handler runs over its response writer and the goroutines it has
    started ([R] is the type of a goroutine body); [None] is a run-time
    panic. *)
Record State (R : Type) : Type := {
  rw : ResponseWriter;
  spawned : list R;
}.
Arguments rw {R} _.
Arguments spawned {R} _.

Definition Eff (R A : Type) : Type := State R → option (A * State R).

Definition ret {R A} (a : A) : Eff R A := λ st, Some (a, st).
Definition bind {R A B} (m : Eff R A) (k : A → Eff R B) : Eff R B :=
  λ st, match m st with
        | Some (a, st') => k a st'
        | None => None
        end.
Definition panic {R A} : Eff R A := λ _, None.

#[global] Instance Eff_ret {R} : MRet (Eff R) := λ A a, ret a.
#[global] Instance Eff_bind {R} : MBind (Eff R) := λ A B k m, bind m k.

Definition modify_rw {R} (f : ResponseWriter → ResponseWriter) : Eff R unit :=
  λ st, Some (tt, {| rw := f (rw st); spawned := spawned st |}).

(** [w.Header().Set(k, v)] and [w.Header().Del(k)] *)
Definition HeaderSet {R} (k v : string) : Eff R unit :=
  modify_rw (λ w, {| reqMethod := reqMethod w;
                     header := <[k := v]> (header w);
                     wroteHeader := wroteHeader w; status := status w;
                     sentHeader := sentHeader w; written := written w |}).
Definition HeaderDel {R} (k : string) : Eff R unit :=
  modify_rw (λ w, {| reqMethod := reqMethod w;
                     header := delete k (header w);
                     wroteHeader := wroteHeader w; status := status w;
                     sentHeader := sentHeader w; written := written w |}).

(** [w.WriteHeader(code)]: the first call sends the status line and the
    headers set so far; a later call changes nothing. *)
Definition writeHeader (code : Z) (w : ResponseWriter) : ResponseWriter :=
  if wroteHeader w then w
  else {| reqMethod := reqMethod w; header := header w;
          wroteHeader := true; status := code;
          sentHeader := header w; written := written w |}.
Definition WriteHeader {R} (code : Z) : Eff R unit :=
  modify_rw (writeHeader code).

(** [w.Write(b)]: sends [WriteHeader(StatusOK)] first if no header went
    out yet, and then the bytes, except that the server eats the writes
    when the request is a [HEAD].  (Every write below follows a
    [Content-Type] set by the handler, so content sniffing never
    applies.) *)
Definition Write {R} (c : Chunk) : Eff R unit :=
  modify_rw (λ w, let w' := writeHeader StatusOK w in
                  {| reqMethod := reqMethod w';
                     header := header w'; wroteHeader := wroteHeader w';
                     status := status w'; sentHeader := sentHeader w';
                     written := if decide (reqMethod w' = "HEAD")
                                then written w'
                                else written w' ++ [c] |}).

(** [go f()] *)
Definition Go {R} (f : R) : Eff R unit :=
  λ st, Some (tt, {| rw := rw st; spawned := spawned st ++ [f] |}).

(** [xs[i]] on a slice: panics out of range. *)
Definition index {R A} (xs : list A) (i : Z) : Eff R A :=
  if i <? 0 then panic
  else match xs !! Z.to_nat i with
       | Some x => ret x
       | None => panic
       end.

(** [http.Error(w, error, code)]:
<<
    h := w.Header()
    h.Del("Content-Length")
    h.Set("Content-Type", "text/plain; charset=utf-8")
    h.Set("X-Content-Type-Options", "nosniff")
    w.WriteHeader(code)
    fmt.Fprintln(w, error)
>> *)
Definition Error {R} (error : string) (code : Z) : Eff R unit :=
  bind (HeaderDel "Content-Length") (λ _,
  bind (HeaderSet "Content-Type" "text/plain; charset=utf-8") (λ _,
  bind (HeaderSet "X-Content-Type-Options" "nosniff") (λ _,
  bind (WriteHeader code) (λ _,
  Write (Bytes (error +:+ String "010"%char EmptyString)))))).

(** [http.NotFound(w, r)] *)
Definition NotFound {R} : Eff R unit :=
  Error "404 page not found" StatusNotFound.

(** *** [http.ServeMux]

    The patterns used here are plain paths.  A pattern that does not end
    in a slash names one path; a pattern that ends in a slash names the
    subtree below it.  [m] holds every registered pattern for the exact
    look-up, [es] the subtree patterns from longest to shortest. *)
Definition HandlerFunc (R : Type) : Type := Request → Eff R unit.

Record ServeMux (R : Type) : Type := {
  m : gmap string (HandlerFunc R);
  es : list (string * HandlerFunc R);
}.
Arguments m {R} _.
Arguments es {R} _.

Definition NewServeMux {R} : ServeMux R := {| m := ∅; es := [] |}.

(** Insert before the first entry with a shorter pattern. *)
Fixpoint appendSorted {R} (es : list (string * HandlerFunc R))
    (e : string * HandlerFunc R) : list (string * HandlerFunc R) :=
  match es with
  | [] => [e]
  | e' :: rest =>
      if (String.length (fst e') <? String.length (fst e))%nat
      then e :: e' :: rest
      else e' :: appendSorted rest e
  end.

Definition ends_in_slash (pattern : string) : bool :=
  bool_decide (String.get (String.length pattern - 1) pattern = Some "/"%char).

Definition HandleFunc {R} (pattern : string) (h : HandlerFunc R)
    (mux : ServeMux R) : ServeMux R :=
  {| m := <[pattern := h]> (m mux);
     es := if ends_in_slash pattern then appendSorted (es mux) (pattern, h)
           else es mux |}.

(** The first (so the longest) subtree pattern that is a prefix of [path]. *)
Fixpoint longest_match {R} (es : list (string * HandlerFunc R)) (path : string)
    : option (HandlerFunc R) :=
  match es with
  | [] => None
  | (pattern, h) :: rest =>
      if Strings.HasPrefix path pattern then Some h else longest_match rest path
  end.

(** The handler for [path]: exact match first, then the longest subtree
    match, and [NotFound] when no pattern matches. *)
Definition mux_match {R} (mux : ServeMux R) (path : string) : HandlerFunc R :=
  match m mux !! path with
  | Some h => h
  | None =>
      match longest_match (es mux) path with
      | Some h => h
      | None => λ _, NotFound
      end
  end.

(** *** Requests the multiplexer answers itself

    Before it looks for a handler, the multiplexer brings the path of any
    request but a [CONNECT] into canonical form with [cleanPath]; when that
    changes the path it answers with a 301 redirect to the clean path and
    no handler runs.  The request target [*] never reaches a handler
    either: the server answers [OPTIONS *] itself, the multiplexer refuses
    any other method on it with 400. *)

(** [path.Clean] looks at the path one element at a time: an empty element
    and [.] are dropped, [..] takes back the element before it (at the root
    there is none to take back), anything else is kept.  [out] holds the
    elements kept so far, the last one first. *)
Definition clean_element (elem : string) (out : list string) : list string :=
  if decide (elem = "") then out
  else if decide (elem = ".") then out
  else if decide (elem = "..") then tail out
  else elem :: out.

(** The scan of [path.Clean] over the bytes of the path; [elem] is the
    element being read. *)
Fixpoint clean_scan (s : string) (elem : string) (out : list string)
    : list string :=
  match s with
  | EmptyString => clean_element elem out
  | String c rest =>
      if decide (c = "/"%char) then clean_scan rest "" (clean_element elem out)
      else clean_scan rest (elem +:+ String c EmptyString) out
  end.

(** The kept elements, each behind a slash. *)
Fixpoint join_rooted (elems : list string) : string :=
  match elems with
  | [] => EmptyString
  | e :: es => "/" +:+ e +:+ join_rooted es
  end.

(** [path.Clean(p)] for a path that begins with a slash (the only paths
    [cleanPath] passes to it). *)
Definition Clean (p : string) : string :=
  match rev (clean_scan p "" []) with
  | [] => "/"
  | elems => join_rooted elems
  end.

(** [cleanPath] of [net/http]:
<<
    if p == "" { return "/" }
    if p[0] != '/' { p = "/" + p }
    np := path.Clean(p)
    if p[len(p)-1] == '/' && np != "/" {
      if len(p) == len(np)+1 && strings.HasPrefix(p, np) { np = p }
      else { np += "/" }
    }
    return np
>> *)
Definition cleanPath (p : string) : string :=
  match p with
  | EmptyString => "/"
  | String c0 _ =>
      let p := if decide (c0 ≠ "/"%char) then "/" +:+ p else p in
      let np := Clean p in
      if bool_decide (Strings.last_byte p = Some "/"%char)
         && bool_decide (np ≠ "/")
      then if (String.length p =? String.length np + 1)%nat
              && Strings.HasPrefix p np
           then p else np +:+ "/"
      else np
  end.

(** A path element that [path.Clean] keeps as it is: not empty, without a
    slash, and neither [.] nor [..]. *)
Definition is_element (e : string) : bool :=
  negb (bool_decide (e = "")) && negb (Strings.contains_byte "/"%char e)
  && negb (bool_decide (e = ".")) && negb (bool_decide (e = "..")).

(** The requests that get to a handler: the target is not [*], and either
    the method is [CONNECT] (whose path is taken as it is) or the path is
    already clean. *)
Definition reaches_handler (r : Request) : bool :=
  negb (bool_decide (URLPath r = "*"))
  && (bool_decide (Method r = "CONNECT")
      || bool_decide (cleanPath (URLPath r) = URLPath r)).

(** The dispatch of a request that reaches a handler (see
    [reaches_handler]); what the multiplexer answers to the other requests
    is not part of this model. *)
Definition ServeHTTP {R} (mux : ServeMux R) (r : Request) : Eff R unit :=
  mux_match mux (URLPath r) r.

(** What the client receives. *)
Record Response : Type := {
  StatusCode : Z;
  Header : gmap string string;
  Body : list Chunk;
}.

(** When the handler returns, the server sends [StatusOK] and the headers
    if the handler has not written a header itself. *)
Definition finishRequest (w : ResponseWriter) : Response :=
  let w' := writeHeader StatusOK w in
  {| StatusCode := status w'; Header := sentHeader w'; Body := written w' |}.

End HTTP.

(** ** The configuration *)

Module Config.

(** Modelled from the spec: the job definition of the configuration, whose
    declaration is outside [api.go]; these are the four string fields the
    API reads ([job.Name], [job.Schedule], [job.Command], [job.Run]). *)
Record Job : Type := {
  Name : string;
  Schedule : string;
  Command : string;
  Run : string;
}.

End Config.

(** ** The dashboard page *)

Module Page.

(** The double quote, as a one-byte string. *)
Definition dq : string := String "034"%char EmptyString.

Definition jobsPageHTML : string :=
"<!DOCTYPE html>
<html>
<head>
  <meta charset=" +:+ dq +:+
"utf-8" +:+ dq +:+
">
  <meta name=" +:+ dq +:+
"viewport" +:+ dq +:+
" content=" +:+ dq +:+
"width=device-width, initial-scale=1" +:+ dq +:+
">
  <title>Rclone Backup – Jobs</title>
  <style>
    body { font-family: system-ui, sans-serif; margin: 1rem; max-width: 800px; }
    h1 { font-size: 1.25rem; }
    .job { display: flex; align-items: center; gap: 0.75rem; margin: 0.5rem 0; padding: 0.5rem; background: #f5f5f5; border-radius: 6px; }
    .job-name { font-weight: 600; min-width: 140px; }
    .job-schedule { color: #666; font-size: 0.9rem; }
    .job-type { font-size: 0.85rem; color: #444; }
    button { padding: 0.35rem 0.75rem; cursor: pointer; background: #03a9f4; color: #fff; border: none; border-radius: 4px; }
    button:hover { background: #0288d1; }
    button:disabled { background: #ccc; cursor: not-allowed; }
    .error { color: #c62828; margin-top: 0.5rem; }
  </style>
</head>
<body>
  <h1>Jobs</h1>
  <p>Run a job now (logs appear in the addon log).</p>
  <div id=" +:+ dq +:+
"jobs" +:+ dq +:+
"></div>
  <p class=" +:+ dq +:+
"error" +:+ dq +:+
" id=" +:+ dq +:+
"err" +:+ dq +:+
" style=" +:+ dq +:+
"display:none;" +:+ dq +:+
"></p>
  <script>
    const el = document.getElementById('jobs');
    const errEl = document.getElementById('err');
    function showErr(msg) { errEl.textContent = msg; errEl.style.display = 'block'; }
    fetch('/api/jobs')
      .then(r => r.ok ? r.json() : Promise.reject(new Error('Failed to load jobs')))
      .then(jobs => {
        jobs.forEach(j => {
          const div = document.createElement('div');
          div.className = 'job';
          const name = document.createElement('span');
          name.className = 'job-name';
          name.textContent = j.name || ('Job ' + j.index);
          const sched = document.createElement('span');
          sched.className = 'job-schedule';
          sched.textContent = j.schedule;
          const typ = document.createElement('span');
          typ.className = 'job-type';
          typ.textContent = j.type === 'run' ? ('run: ' + (j.run && j.run.length > 40 ? j.run.slice(0, 40) + '…' : j.run)) : ('rclone ' + j.command);
          const btn = document.createElement('button');
          btn.textContent = 'Run now';
          btn.onclick = () => {
            btn.disabled = true;
            fetch('/api/jobs/' + j.index + '/run', { method: 'POST' })
              .then(r => r.ok ? null : Promise.reject(new Error('Request failed')))
              .then(() => { setTimeout(() => btn.disabled = false, 2000); })
              .catch(e => { showErr(e.message); btn.disabled = false; });
          };
          div.appendChild(name);
          div.appendChild(sched);
          div.appendChild(typ);
          div.appendChild(btn);
          el.appendChild(div);
        });
      })
      .catch(e => showErr(e.message));
  </script>
</body>
</html>
".

End Page.

(** ** [api.go] *)

Module API.

Import Strings Strconv HTTP.

Definition apiPort : string := "8098".

(** JobSummary is the API view of a job for listing.  ([Type_] is the
    field [Type].) *)
Record JobSummary : Type := {
  Index : Z;
  Name : string;
  Schedule : string;
  Command : string;
  Run : string;
  Type_ : string;
}.

(** The struct tags of [JobSummary], in declaration order: [command] and
    [run] are [omitempty]. *)
Definition marshalJobSummary (s : JobSummary) : JSON.Value :=
  JSON.Object
    (JSON.member "index" (JSON.Number (Index s))
     ++ JSON.member "name" (JSON.Str (Name s))
     ++ JSON.member "schedule" (JSON.Str (Schedule s))
     ++ JSON.omitempty "command" (Command s)
     ++ JSON.omitempty "run" (Run s)
     ++ JSON.member "type" (JSON.Str (Type_ s))).

(** A non-nil slice of summaries is a JSON array. *)
Definition marshalList (list : list JobSummary) : JSON.Value :=
  JSON.Array (marshalJobSummary <$> list).

(** The body of the listing loop for the job at position [i]. *)
Definition summarize (i : nat) (job : Config.Job) : JobSummary :=
  let schedule :=
    if decide (Config.Schedule job = "") then "(on demand / startup)"
    else Config.Schedule job in
  if decide (Config.Run job ≠ "") then
    {| Index := Z.of_nat i; Name := Config.Name job; Schedule := schedule;
       Command := ""; Run := Config.Run job; Type_ := "run" |}
  else
    {| Index := Z.of_nat i; Name := Config.Name job; Schedule := schedule;
       Command := Config.Command job; Run := ""; Type_ := "rclone" |}.

(** [for i, job := range config.Jobs { ...; list = append(list, summary) }]
    from position [i] on, [out] being the [list] built so far. *)
Fixpoint list_jobs (i : nat) (jobs : list Config.Job) (out : list JobSummary)
    : list JobSummary :=
  match jobs with
  | [] => out
  | job :: rest => list_jobs (S i) rest (out ++ [summarize i job])
  end.

(** The handler of ["/api/jobs"]. *)
Definition handleJobs {R} (jobs : list Config.Job) : HandlerFunc R := λ r,
  if decide (Method r ≠ MethodGet) then WriteHeader StatusMethodNotAllowed
  else
    HeaderSet "Content-Type" "application/json";;
    let list := list_jobs 0 jobs [] in
    Write (JSONLine (marshalList list)).

(** The bytes [{"status":"accepted"}]. *)
Definition acceptedBody : string :=
  "{" +:+ Page.dq +:+ "status" +:+ Page.dq +:+ ":" +:+ Page.dq +:+ "accepted"
  +:+ Page.dq +:+ "}".

(** The handler of ["/api/jobs/"]. *)
Definition handleTrigger {R} (runnables : list R) : HandlerFunc R := λ r,
  if decide (Method r ≠ MethodPost) then WriteHeader StatusMethodNotAllowed
  else
    let path := TrimPrefix (URLPath r) "/api/jobs/" in
    let path := TrimSuffix path "/run" in
    let '(index, err) := Atoi path in
    if bool_decide (err ≠ None) || (index <? 0)
       || (Z.of_nat (length runnables) <=? index)
    then Error "invalid job index" StatusBadRequest
    else
      f ← HTTP.index runnables index;
      Go f;;
      HeaderSet "Content-Type" "application/json";;
      WriteHeader StatusAccepted;;
      Write (Bytes acceptedBody).

(** The handler of ["/"]. *)
Definition handleRoot {R} : HandlerFunc R := λ r,
  if bool_decide (URLPath r ≠ "/") && bool_decide (URLPath r ≠ "/jobs")
  then NotFound
  else
    HeaderSet "Content-Type" "text/html; charset=utf-8";;
    Write (Bytes Page.jobsPageHTML).

(** The multiplexer [StartAPIServer] builds, for the configured jobs
    ([config.Jobs]) and the [runnables] it is given. *)
Definition StartAPIServer {R} (jobs : list Config.Job) (runnables : list R)
    : ServeMux R :=
  let mux := NewServeMux in
  let mux := HandleFunc "/api/jobs" (handleJobs jobs) mux in
  let mux := HandleFunc "/api/jobs/" (handleTrigger runnables) mux in
  let mux := HandleFunc "/" handleRoot mux in
  mux.

(** One request served by the handlers behind
    [http.ListenAndServe(":"+apiPort, mux)]: a fresh response writer, the
    dispatch, and the end of the request.  The result is the response and
    the goroutines the handler started; [None] would be a panic of the
    handler.  This is the answer of the server to the requests that reach
    a handler ([reaches_handler]); net/http answers the others itself. *)
Definition serve {R} (jobs : list Config.Job) (runnables : list R)
    (r : Request) : option (Response * list R) :=
  match ServeHTTP (StartAPIServer jobs runnables) r
          {| rw := newResponseWriter (Method r); spawned := [] |} with
  | Some (_, st) => Some (finishRequest (rw st), spawned st)
  | None => None
  end.

(** What the server does with a request: a handler runs (or panics), or
    net/http answers it itself: the multiplexer with a 301 redirect to the
    clean path or with 400 for the target [*], the server with 200 for
    [OPTIONS *]. *)
Inductive Answer (R : Type) : Type :=
| Handled (resp : Response) (gs : list R)
| HandlerPanic
| Moved (path : string)
| BadTarget
| ServerOptions.
Arguments Handled {R} _ _.
Arguments HandlerPanic {R}.
Arguments Moved {R} _.
Arguments BadTarget {R}.
Arguments ServerOptions {R}.

Definition answer {R} (jobs : list Config.Job) (runnables : list R)
    (r : Request) : Answer R :=
  if decide (URLPath r = "*") then
    if decide (Method r = "OPTIONS") then ServerOptions else BadTarget
  else if bool_decide (Method r ≠ "CONNECT")
          && bool_decide (cleanPath (URLPath r) ≠ URLPath r)
  then Moved (cleanPath (URLPath r))
  else match serve jobs runnables r with
       | Some (resp, gs) => Handled resp gs
       | None => HandlerPanic
       end.

(** The status the client sees; a panic of a handler would close the
    connection without one. *)
Definition answerStatus {R} (a : Answer R) : option Z :=
  match a with
  | Handled resp _ => Some (StatusCode resp)
  | HandlerPanic => None
  | Moved _ => Some 301
  | BadTarget => Some 400
  | ServerOptions => Some 200
  end.



(** The media type of a [Content-Type] value: what precedes the first
    semicolon. *)
Fixpoint mediaType (v : string) : string :=
  match v with
  | EmptyString => EmptyString
  | String c rest => if decide (c = ";"%char) then EmptyString
                     else String c (mediaType rest)
  end.

(** The index string of a trigger path, as the handler computes it. *)
Definition indexString (path : string) : string :=
  TrimSuffix (TrimPrefix path "/api/jobs/") "/run".

(** *** The responses the handlers produce *)

(** [202] with the body [{"status":"accepted"}]. *)
Definition acceptedResponse : Response :=
  {| StatusCode := StatusAccepted;
     Header := {[ "Content-Type" := "application/json" ]};
     Body := [Bytes acceptedBody] |}.

(** What [http.Error] sends. *)
Definition errorResponse (msg : string) (code : Z) : Response :=
  {| StatusCode := code;
     Header := {[ "Content-Type" := "text/plain; charset=utf-8";
                  "X-Content-Type-Options" := "nosniff" ]};
     Body := [Bytes (msg +:+ String "010"%char EmptyString)] |}.

(** A bare [405]: no header, no body. *)
Definition methodNotAllowedResponse : Response :=
  {| StatusCode := StatusMethodNotAllowed; Header := ∅; Body := [] |}.

(** The dashboard page. *)
Definition pageResponse : Response :=
  {| StatusCode := StatusOK;
     Header := {[ "Content-Type" := "text/html; charset=utf-8" ]};
     Body := [Bytes Page.jobsPageHTML] |}.

(** A listing that carries the array [arr]. *)
Definition listingResponse (arr : list JSON.Value) : Response :=
  {| StatusCode := StatusOK;
     Header := {[ "Content-Type" := "application/json" ]};
     Body := [JSONLine (JSON.Array arr)] |}.

(** What the client gets of a response when the request was a [HEAD]:
    the status and the headers, no body. *)
Definition onHead (method : string) (resp : Response) : Response :=
  if decide (method = "HEAD")
  then {| StatusCode := StatusCode resp; Header := Header resp; Body := [] |}
  else resp.

(** The request [GET /api/jobs]. *)
Definition getJobs : Request := {| Method := MethodGet; URLPath := "/api/jobs" |}.

(** A listed object has exactly one of [command] and [run], the one its
    [type] names. *)
Definition one_action_field (obj : JSON.Value) : bool :=
  match JSON.field "type" obj, JSON.field "command" obj, JSON.field "run" obj with
  | Some (JSON.Str t), Some _, None => bool_decide (t = "rclone")
  | Some (JSON.Str t), None, Some _ => bool_decide (t = "run")
  | _, _, _ => false
  end.

End API.

(** ** The executor behind the runnables *)

Module Executor.

(** Modelled from the spec: the outcome of [trigger] (section 4.2); the
    executor is built outside [api.go]. *)
Inductive TriggerResult : Set :=
| Accepted
| Busy.

(** Modelled from the spec: the per-job "currently running" flags (the
    RunState of section 3) and the outcomes the executor has logged. *)
Record World : Type := {
  running : list bool;
  outcomes : list (nat * TriggerResult);
}.

(** Modelled from the spec: [trigger(index)] of section 4.2, a check-and-set
    of the job's flag: [Busy] when a run is in flight, otherwise the flag
    is set and the result is [Accepted]. *)
Definition trigger (index : nat) (w : World) : TriggerResult * World :=
  match running w !! index with
  | Some true => (Busy, w)
  | _ => (Accepted, {| running := <[index := true]> (running w);
                       outcomes := outcomes w |})
  end.

(** Modelled from the spec: the runnable of job [index] triggers it and
    logs the outcome; as a [func()] it returns nothing. *)
Definition runnable (index : nat) : World → World := λ w,
  let '(res, w') := trigger index w in
  {| running := running w'; outcomes := outcomes w' ++ [(index, res)] |}.

Definition runnables (n : nat) : list (World → World) := runnable <$> seq 0 n.

End Executor.

(** ** Sample configurations *)

Module Samples.

Import HTTP.

(** The two jobs of the listing example: a scheduled sync job and an
    on-demand shell job. *)
Definition nightly : Config.Job :=
  {| Config.Name := "Nightly"; Config.Schedule := "0 2 * * *";
     Config.Command := "sync"; Config.Run := "" |}.
Definition cleanup : Config.Job :=
  {| Config.Name := "Cleanup"; Config.Schedule := "";
     Config.Command := ""; Config.Run := "rm -rf /tmp/stale" |}.

(** A sync job that only runs on demand. *)
Definition idle : Config.Job :=
  {| Config.Name := "Idle"; Config.Schedule := "";
     Config.Command := "copy"; Config.Run := "" |}.

Definition post (path : string) : Request :=
  {| Method := MethodPost; URLPath := path |}.


End Samples.

(** ** Decimal numerals *)

Module Numeral.

Import Strconv.

(** The bytes ['0'] to ['9']. *)
Definition is_digit (c : ascii) : bool :=
  (48 <=? byte_val c) && (byte_val c <=? 57).

(** The number that the decimal digits of [s] denote when they follow the
    digits of [acc]; [None] when some byte of [s] is not a digit. *)
Fixpoint decimal_from (s : string) (acc : Z) : option Z :=
  match s with
  | EmptyString => Some acc
  | String c rest =>
      if is_digit c then decimal_from rest (acc * 10 + (byte_val c - 48))
      else None
  end.

(** The value of an optionally signed decimal numeral: one optional [+]
    or [-], then at least one digit, and nothing else. *)
Definition numeral (s : string) : option Z :=
  match s with
  | EmptyString => None
  | String c rest =>
      let body :=
        if bool_decide (c = "+"%char) || bool_decide (c = "-"%char)
        then rest else s in
      match body with
      | EmptyString => None
      | _ => (λ n, if bool_decide (c = "-"%char) then - n else n)
               <$> decimal_from body 0
      end
  end.

(** The values of Go's [int]. *)
Definition is_int (v : Z) : bool := (- 2 ^ 63 <=? v) && (v <? 2 ^ 63).

End Numeral.

(** ** The script of the dashboard page *)

Module Dashboard.

Import HTTP.

(** The request behind the "Run now" button of a listed job,
    [fetch('/api/jobs/' + j.index + '/run', { method: 'POST' })], where
    [j.index] is the number the listing carries; JavaScript prints an
    integer below 2^53 in plain decimal. *)
Definition runNow (index : Z) : Request :=
  {| Method := "POST";
     URLPath := "/api/jobs/" +:+ pretty index +:+ "/run" |}.

End Dashboard.

(** ** [scripts/release.sh]: the command line *)

Module Release.

(** The pieces of a [case] pattern: a literal byte, the class [[0-9]] and
    the star. *)
Inductive Glob : Set :=
| Lit (c : ascii)
| Digit
| Star.

(** Does the whole of [s] match the pattern?  A star stands for any
    string, the empty one included. *)
Fixpoint glob_match (p : list Glob) (s : string) : bool :=
  match p with
  | [] => bool_decide (s = EmptyString)
  | Lit c :: p' =>
      match s with
      | String a s' => bool_decide (a = c) && glob_match p' s'
      | EmptyString => false
      end
  | Digit :: p' =>
      match s with
      | String a s' => Numeral.is_digit a && glob_match p' s'
      | EmptyString => false
      end
  | Star :: p' =>
      (fix star (s : string) : bool :=
         glob_match p' s
         || match s with
            | String _ s' => star s'
            | EmptyString => false
            end) s
  end.

(** The pattern [[0-9]*.[0-9]*.[0-9]*]. *)
Definition version_glob : list Glob :=
  [Digit; Star; Lit "."; Digit; Star; Lit "."; Digit; Star].

(** The shell variables the argument loop sets; unset is the empty
    string. *)
Record Options : Set := {
  NO_PUSH : string;
  NO_CHANGELOG : string;
  NO_RELEASE : string;
  BUMP : string;
}.

(** The script goes on with a value, or has left with an exit code. *)
Inductive Outcome (A : Type) : Type :=
| Continue (a : A)
| Exit (code : Z).
Arguments Continue {A} _.
Arguments Exit {A} _.

(** [usage] prints the help text and ends the script with [exit 1]. *)
Definition usage {A} : Outcome A := Exit 1.

(** The [case "$arg" in ... esac] of the loop: the first pattern that
    matches decides. *)
Definition case_arg (o : Options) (arg : string) : Outcome Options :=
  if bool_decide (arg = "--no-push") then
    Continue {| NO_PUSH := "1"; NO_CHANGELOG := NO_CHANGELOG o;
                NO_RELEASE := NO_RELEASE o; BUMP := BUMP o |}
  else if bool_decide (arg = "--no-changelog") then
    Continue {| NO_PUSH := NO_PUSH o; NO_CHANGELOG := "1";
                NO_RELEASE := NO_RELEASE o; BUMP := BUMP o |}
  else if bool_decide (arg = "--no-release") then
    Continue {| NO_PUSH := NO_PUSH o; NO_CHANGELOG := NO_CHANGELOG o;
                NO_RELEASE := "1"; BUMP := BUMP o |}
  else if bool_decide (arg = "patch") || bool_decide (arg = "minor")
          || bool_decide (arg = "major") then
    Continue {| NO_PUSH := NO_PUSH o; NO_CHANGELOG := NO_CHANGELOG o;
                NO_RELEASE := NO_RELEASE o; BUMP := arg |}
  else if glob_match version_glob arg then
    Continue {| NO_PUSH := NO_PUSH o; NO_CHANGELOG := NO_CHANGELOG o;
                NO_RELEASE := NO_RELEASE o; BUMP := arg |}
  else usage.

(** [for arg in "$@"; do case ... esac; done] *)
Fixpoint for_args (args : list string) (o : Options) : Outcome Options :=
  match args with
  | [] => Continue o
  | arg :: rest =>
      match case_arg o arg with
      | Continue o' => for_args rest o'
      | Exit code => Exit code
      end
  end.

(** Lines 21 to 37: the four variables start empty, the loop runs over
    the arguments, and [[[ -n "$BUMP" ]] || usage] ends the script when no
    bump was given. *)
Definition parse_arguments (args : list string) : Outcome Options :=
  match for_args args {| NO_PUSH := ""; NO_CHANGELOG := "";
                         NO_RELEASE := ""; BUMP := "" |} with
  | Continue o => if bool_decide (BUMP o ≠ "") then Continue o else usage
  | Exit code => Exit code
  end.

(** *** The command line, said without the loop *)

(** An argument that sets [BUMP]. *)
Definition is_bump (arg : string) : bool :=
  bool_decide (arg = "patch") || bool_decide (arg = "minor")
  || bool_decide (arg = "major") || glob_match version_glob arg.

Definition is_flag (arg : string) : bool :=
  bool_decide (arg = "--no-push") || bool_decide (arg = "--no-changelog")
  || bool_decide (arg = "--no-release").

(** ["1"] when the flag is among the arguments. *)
Definition flag (name : string) (args : list string) : string :=
  if bool_decide (name ∈ args) then "1" else "".

(** The last bump among the arguments, [cur] when there is none. *)
Definition last_bump (args : list string) (cur : string) : string :=
  foldl (λ b arg, if is_bump arg then arg else b) cur args.

End Release.

(** * Facts about the library functions *)

Module StringsFacts.

Import Strings.

Lemma string_app_cons (x : ascii) (a b : string) :
  String x a +:+ b = String x (a +:+ b).
Proof. reflexivity. Qed.

Lemma string_app_nil_l (b : string) : EmptyString +:+ b = b.
Proof. reflexivity. Qed.

Lemma string_length_app (p s : string) :
  String.length (p +:+ s) = (String.length p + String.length s)%nat.
Proof.
  induction p as [|c p IH]; [done |].
  rewrite string_app_cons. simpl. by rewrite IH.
Qed.

Lemma app_assoc_string (a b c : string) : (a +:+ b) +:+ c = a +:+ (b +:+ c).
Proof.
  induction a as [|x a IH]; [done |].
  by rewrite !string_app_cons, IH.
Qed.

Lemma substring_all (s : string) : String.substring 0 (String.length s) s = s.
Proof. induction s as [|c s IH]; simpl; [done | by rewrite IH]. Qed.

Lemma substring_app_l (p s : string) :
  String.substring 0 (String.length p) (p +:+ s) = p.
Proof.
  induction p as [|c p IH].
  - rewrite string_app_nil_l. by destruct s.
  - rewrite string_app_cons. simpl. by rewrite IH.
Qed.

Lemma substring_app_r (p s : string) :
  String.substring (String.length p) (String.length s) (p +:+ s) = s.
Proof.
  induction p as [|c p IH]; [apply substring_all |].
  rewrite string_app_cons. simpl. apply IH.
Qed.

(** A string is the concatenation of its two slices at any cut. *)
Lemma substring_split (s : string) (n : nat) :
  (n ≤ String.length s)%nat →
  s = String.substring 0 n s +:+ String.substring n (String.length s - n) s.
Proof.
  revert n. induction s as [|c s IH]; intros n Hn; simpl in *.
  - by destruct n.
  - destruct n as [|n]; simpl.
    + by rewrite substring_all.
    + rewrite string_app_cons. f_equal. apply IH. lia.
Qed.

Lemma HasPrefix_app (p s : string) : HasPrefix (p +:+ s) p = true.
Proof.
  unfold HasPrefix, slice. rewrite string_length_app, Nat.sub_0_r, substring_app_l.
  rewrite bool_decide_eq_true_2 by done.
  rewrite andb_true_r. apply Nat.leb_le. lia.
Qed.

Lemma TrimPrefix_app (p s : string) : TrimPrefix (p +:+ s) p = s.
Proof.
  unfold TrimPrefix. rewrite HasPrefix_app. unfold slice.
  rewrite string_length_app.
  replace (String.length p + String.length s - String.length p)%nat
    with (String.length s) by lia.
  apply substring_app_r.
Qed.

Lemma HasSuffix_app (s suf : string) : HasSuffix (s +:+ suf) suf = true.
Proof.
  unfold HasSuffix, slice. rewrite string_length_app.
  replace (String.length s + String.length suf - String.length suf)%nat
    with (String.length s) by lia.
  replace (String.length s + String.length suf - String.length s)%nat
    with (String.length suf) by lia.
  rewrite substring_app_r, bool_decide_eq_true_2 by done.
  rewrite andb_true_r. apply Nat.leb_le. lia.
Qed.

(** [TrimSuffix] removes one copy of the suffix, whatever precedes it. *)
Lemma TrimSuffix_app (s suf : string) : TrimSuffix (s +:+ suf) suf = s.
Proof.
  unfold TrimSuffix. rewrite HasSuffix_app. unfold slice.
  rewrite string_length_app, Nat.sub_0_r.
  replace (String.length s + String.length suf - String.length suf)%nat
    with (String.length s) by lia.
  apply substring_app_l.
Qed.

(** A string with the suffix is something followed by the suffix. *)
Lemma HasSuffix_inv (t suf : string) :
  HasSuffix t suf = true → ∃ t', t = t' +:+ suf.
Proof.
  unfold HasSuffix, slice. intros [Hlen Heq%bool_decide_eq_true]%andb_true_iff.
  apply Nat.leb_le in Hlen.
  exists (String.substring 0 (String.length t - String.length suf) t).
  pose proof (substring_split t (String.length t - String.length suf)) as Hs.
  rewrite Heq in Hs. apply Hs. lia.
Qed.

Lemma HasPrefix_inv (t p : string) :
  HasPrefix t p = true → ∃ t', t = p +:+ t'.
Proof.
  unfold HasPrefix, slice. intros [Hlen Heq%bool_decide_eq_true]%andb_true_iff.
  apply Nat.leb_le in Hlen. rewrite Nat.sub_0_r in Heq.
  exists (String.substring (String.length p)
            (String.length t - String.length p) t).
  pose proof (substring_split t (String.length p)) as Hs.
  rewrite Heq in Hs. by apply Hs.
Qed.

Lemma contains_byte_app (c : ascii) (a b : string) :
  contains_byte c (a +:+ b) = contains_byte c a || contains_byte c b.
Proof.
  induction a as [|x a IH]; [done |].
  rewrite string_app_cons. simpl. by rewrite IH, orb_assoc.
Qed.

Lemma last_byte_app (a b : string) :
  b ≠ EmptyString → last_byte (a +:+ b) = last_byte b.
Proof.
  intros Hb. induction a as [|x a IH]; [done |].
  rewrite string_app_cons. simpl. rewrite IH.
  destruct (a +:+ b) eqn:E; [|done].
  destruct a; [by rewrite string_app_nil_l in E | by rewrite string_app_cons in E].
Qed.

(** A string and a suffix that end in different bytes. *)
Lemma HasSuffix_last (s suf : string) :
  suf ≠ EmptyString → last_byte s ≠ last_byte suf → HasSuffix s suf = false.
Proof.
  intros Hsuf Hne. destruct (HasSuffix s suf) eqn:E; [|done].
  apply HasSuffix_inv in E as [t' ->].
  by rewrite last_byte_app in Hne.
Qed.

End StringsFacts.

Module StrconvFacts.

Import Strings Strconv.

(** The fast loop stops at a slash. *)
Lemma atoi_digits_slash (s : string) (n : Z) :
  contains_byte "/" s = true → atoi_digits s n = (0, Some ErrSyntax).
Proof.
  revert n. induction s as [|c s IH]; intros n Hc; simpl in *; [done |].
  destruct (decide (c = "/"%char)) as [->|Hne]; [done |].
  rewrite bool_decide_eq_false_2 in Hc by done. simpl in Hc.
  destruct (9 <? wrap_byte (byte_val c - 48)); [done |].
  by apply IH.
Qed.

Lemma atoi_fast_slash (s : string) :
  contains_byte "/" s = true → (atoi_fast s).2 ≠ None.
Proof.
  destruct s as [|c0 rest]; [done |]. intros Hc. unfold atoi_fast.
  destruct (bool_decide (c0 = "-"%char) || bool_decide (c0 = "+"%char)) eqn:Hsign;
    cbv beta zeta iota delta [andb].
  - destruct (String.length rest <? 1)%nat; [done |].
    rewrite atoi_digits_slash; [done |].
    simpl in Hc. apply orb_true_iff in Hc as [Hc%bool_decide_eq_true|Hc]; [|done].
    subst c0. by vm_compute in Hsign.
  - by rewrite atoi_digits_slash.
Qed.

(** The loop of [ParseUint] ends in a syntax error at a slash, unless the
    digits before it already overflowed. *)
Lemma parseUint_digits_slash (s : string) (n : Z) :
  contains_byte "/" s = true →
  parseUint_digits s n = (0, Some ErrSyntax)
  ∨ parseUint_digits s n = (maxUint64, Some ErrRange).
Proof.
  revert n. induction s as [|c s IH]; intros n Hc; simpl in *; [done |].
  destruct (decide (c = "/"%char)) as [->|Hne]; [by left |].
  rewrite bool_decide_eq_false_2 in Hc by done. simpl in Hc.
  destruct ((48 <=? byte_val c) && (byte_val c <=? 57)); [|by left].
  destruct (maxUint64 / 10 + 1 <=? n); [by right |].
  destruct (maxUint64 <? n * 10 + (byte_val c - 48)); [by right |].
  by apply IH.
Qed.

Lemma ParseUint_slash (s : string) :
  contains_byte "/" s = true →
  ParseUint s = (0, Some ErrSyntax) ∨ ParseUint s = (maxUint64, Some ErrRange).
Proof.
  destruct s as [|c s]; [done |]. intros Hc.
  by apply (parseUint_digits_slash (String c s)).
Qed.

Lemma ParseInt_slash (s : string) :
  contains_byte "/" s = true → (ParseInt s).2 ≠ None.
Proof.
  destruct s as [|c0 rest]; [done |]. intros Hc. unfold ParseInt.
  set (neg := bool_decide (c0 = "-"%char)).
  set (body := if bool_decide (c0 = "+"%char) || neg then rest else String c0 rest).
  assert (contains_byte "/" body = true) as Hbody.
  { subst body neg.
    destruct (bool_decide (c0 = "+"%char) || bool_decide (c0 = "-"%char)) eqn:Hsign;
      [|done].
    simpl in Hc. apply orb_true_iff in Hc as [Hc%bool_decide_eq_true|Hc]; [|done].
    subst c0. by vm_compute in Hsign. }
  destruct (ParseUint_slash body Hbody) as [-> | ->]; [done |].
  destruct neg; simpl; done.
Qed.

(** [Atoi] fails on every string with a slash in it. *)
Lemma Atoi_slash (s : string) :
  contains_byte "/" s = true → (Atoi s).2 ≠ None.
Proof.
  intros Hc. unfold Atoi.
  destruct ((0 <? String.length s)%nat && (String.length s <? 19)%nat).
  - by apply atoi_fast_slash.
  - by apply ParseInt_slash.
Qed.

End StrconvFacts.

(** * The multiplexer and the handlers *)

Module ServerFacts.

Import Strings Strconv HTTP API StringsFacts StrconvFacts.

Section Dispatch.

Context {R : Type}.
Variable jobs : list Config.Job.
Variable runnables : list R.

(** A path below ["/api/jobs/"] is not ["/api/jobs"]. *)
Lemma subtree_not_exact (path : string) :
  HasPrefix path "/api/jobs/" = true → path ≠ "/api/jobs".
Proof.
  intros H ->. by vm_compute in H.
Qed.

(** The subtree patterns end up sorted from longest to shortest. *)
Lemma registered_subtrees :
  es (StartAPIServer jobs runnables)
  = [("/api/jobs/", handleTrigger runnables); ("/", handleRoot)].
Proof. reflexivity. Qed.

(** The routing table of [StartAPIServer], spelled out. *)
Lemma dispatch (r : Request) :
  ServeHTTP (StartAPIServer jobs runnables) r =
    if decide (URLPath r = "/api/jobs") then handleJobs jobs r
    else if HasPrefix (URLPath r) "/api/jobs/" then handleTrigger runnables r
    else if HasPrefix (URLPath r) "/" then handleRoot r
    else NotFound.
Proof.
  destruct r as [meth path]. unfold ServeHTTP, mux_match. cbn [URLPath].
  rewrite registered_subtrees. unfold StartAPIServer, HandleFunc, NewServeMux. cbn [m].
  rewrite !lookup_insert, lookup_empty.
  destruct (decide ("/" = path)) as [<-|Hroot]; [done |].
  destruct (decide ("/api/jobs/" = path)) as [<-|Hsub]; [done |].
  destruct (decide ("/api/jobs" = path)) as [<-|Hexact].
  { by rewrite decide_True. }
  rewrite decide_False by done. cbn [longest_match].
  destruct (HasPrefix path "/api/jobs/"); [done |].
  by destruct (HasPrefix path "/").
Qed.
(** The request to ["/api/jobs"]. *)
Lemma serve_listing (r : Request) :
  URLPath r = "/api/jobs" →
  serve jobs runnables r =
    if decide (Method r ≠ MethodGet) then Some (methodNotAllowedResponse, [])
    else Some (listingResponse (marshalJobSummary <$> list_jobs 0 jobs []), []).
Proof.
  intros Hpath. unfold serve. rewrite dispatch, decide_True by done.
  unfold handleJobs. destruct r as [meth path]. cbn [Method].
  destruct (decide (meth ≠ MethodGet)) as [Hmeth|Hmeth]; [done |].
  apply dec_stable in Hmeth. by subst meth.
Qed.

(** A request below ["/api/jobs/"]. *)
Lemma serve_trigger (r : Request) :
  HasPrefix (URLPath r) "/api/jobs/" = true →
  serve jobs runnables r =
    if decide (Method r ≠ MethodPost) then Some (methodNotAllowedResponse, [])
    else
      let '(index, err) := Atoi (indexString (URLPath r)) in
      if bool_decide (err ≠ None) || (index <? 0)
         || (Z.of_nat (length runnables) <=? index)
      then Some (errorResponse "invalid job index" StatusBadRequest, [])
      else match runnables !! Z.to_nat index with
           | Some f => Some (acceptedResponse, [f])
           | None => None
           end.
Proof.
  intros Hpath. unfold serve.
  rewrite dispatch, decide_False, Hpath by by apply subtree_not_exact.
  unfold handleTrigger. destruct r as [meth path]. cbn [Method URLPath] in *.
  destruct (decide (meth ≠ MethodPost)) as [Hmeth|Hmeth]; [done |].
  apply dec_stable in Hmeth. subst meth.
  set (r := {| Method := MethodPost; URLPath := path |}).
  change path with (URLPath r). fold (indexString (URLPath r)).
  destruct (Atoi (indexString (URLPath r))) as [index err].
  destruct (bool_decide (err ≠ None) || (index <? 0)
            || (Z.of_nat (length runnables) <=? index)) eqn:Hguard; [done |].
  apply orb_false_iff in Hguard as [[_ Hneg]%orb_false_iff _].
  unfold HTTP.index. cbn. unfold bind. rewrite Hneg.
  by destruct (runnables !! Z.to_nat index).
Qed.

(** Every other request; a [HEAD] gets the response without its body. *)
Lemma serve_root (r : Request) :
  URLPath r ≠ "/api/jobs" → HasPrefix (URLPath r) "/api/jobs/" = false →
  serve jobs runnables r =
    if bool_decide (URLPath r ≠ "/") && bool_decide (URLPath r ≠ "/jobs")
    then Some (onHead (Method r)
                 (errorResponse "404 page not found" StatusNotFound), [])
    else Some (onHead (Method r) pageResponse, []).
Proof.
  intros Hexact Hsub. unfold serve.
  rewrite dispatch, decide_False, Hsub by done.
  destruct r as [meth path]. cbn [Method URLPath] in *. unfold onHead.
  destruct (HasPrefix path "/") eqn:Hslash.
  - unfold handleRoot. cbn [URLPath].
    destruct (bool_decide (path ≠ "/") && bool_decide (path ≠ "/jobs"));
      destruct (decide (meth = "HEAD")) as [-> | Hhead]; try reflexivity;
      unfold mbind, Eff_bind, bind; cbn; by rewrite decide_False by done.
  - assert (path ≠ "/") as H1 by (intros E; by rewrite E in Hslash).
    assert (path ≠ "/jobs") as H2 by (intros E; by rewrite E in Hslash).
    rewrite !bool_decide_eq_true_2 by done.
    destruct (decide (meth = "HEAD")) as [-> | Hhead]; [reflexivity |].
    unfold mbind, Eff_bind, bind. cbn. by rewrite decide_False by done.
Qed.

(** No request makes a handler panic. *)
Lemma serve_total (r : Request) : is_Some (serve jobs runnables r).
Proof.
  destruct (decide (URLPath r = "/api/jobs")) as [Hexact|Hexact].
  { rewrite serve_listing by done. by case_decide. }
  destruct (HasPrefix (URLPath r) "/api/jobs/") eqn:Hsub.
  - rewrite serve_trigger by done. case_decide; [done |].
    destruct (Atoi (indexString (URLPath r))) as [index err].
    destruct (bool_decide (err ≠ None) || (index <? 0)
              || (Z.of_nat (length runnables) <=? index)) eqn:Hguard; [done |].
    apply orb_false_iff in Hguard as [[_ Hneg]%orb_false_iff Hlen].
    destruct (lookup_lt_is_Some_2 runnables (Z.to_nat index)) as [f ->]; [lia | done].
  - rewrite serve_root by done. by case_match.
Qed.

End Dispatch.

(** The listing loop appends the summaries of the jobs, each with its
    position. *)
Lemma list_jobs_spec (i : nat) (jobs : list Config.Job) (out : list JobSummary) :
  list_jobs i jobs out = (out ++ imap (λ k, summarize (i + k)%nat) jobs)%list.
Proof.
  revert i out. induction jobs as [|job jobs IH]; intros i out; simpl.
  - by rewrite app_nil_r.
  - rewrite IH, <- app_assoc. simpl. rewrite Nat.add_0_r.
    do 2 f_equal. apply imap_ext. intros k ? _. simpl. f_equal. lia.
Qed.

Lemma list_jobs_length (jobs : list Config.Job) :
  length (marshalJobSummary <$> list_jobs 0 jobs []) = length jobs.
Proof. by rewrite list_jobs_spec, length_fmap, app_nil_l, length_imap. Qed.

Lemma list_jobs_lookup (jobs : list Config.Job) (k : nat) :
  (marshalJobSummary <$> list_jobs 0 jobs []) !! k
  = (λ job, marshalJobSummary (summarize k job)) <$> jobs !! k.
Proof.
  rewrite list_jobs_spec, app_nil_l, list_lookup_fmap, list_lookup_imap.
  by destruct (jobs !! k).
Qed.

(** The index string of the two forms of a trigger path. *)
Lemma indexString_bare (s : string) :
  HasSuffix s "/run" = false → indexString ("/api/jobs/" +:+ s) = s.
Proof.
  intros Hs. unfold indexString. rewrite TrimPrefix_app.
  unfold TrimSuffix. by rewrite Hs.
Qed.

Lemma indexString_run (s : string) :
  indexString ("/api/jobs/" +:+ s +:+ "/run") = s.
Proof. unfold indexString. by rewrite TrimPrefix_app, TrimSuffix_app. Qed.

End ServerFacts.

(** * Clean paths *)

Module PathFacts.

Import Strings Strconv HTTP API StringsFacts StrconvFacts ServerFacts.

Lemma string_app_nil_r (s : string) : s +:+ "" = s.
Proof.
  induction s as [|c s IH]; [done |]. by rewrite string_app_cons, IH.
Qed.

(** The scan reads an element without a slash in one go. *)
Lemma clean_scan_element (e rest elem : string) (out : list string) :
  contains_byte "/" e = false →
  clean_scan (e +:+ rest) elem out = clean_scan rest (elem +:+ e) out.
Proof.
  revert elem. induction e as [|c e IH]; intros elem Hc.
  { by rewrite string_app_nil_l, string_app_nil_r. }
  simpl in Hc. apply orb_false_iff in Hc as [Hc%bool_decide_eq_false He].
  rewrite string_app_cons. cbn [clean_scan].
  rewrite decide_False by done. rewrite IH by done.
  by rewrite app_assoc_string.
Qed.

Lemma is_element_parts (e : string) :
  is_element e = true →
  e ≠ "" ∧ contains_byte "/" e = false ∧ e ≠ "." ∧ e ≠ "..".
Proof.
  unfold is_element. rewrite !andb_true_iff, !negb_true_iff.
  intros [[[H1%bool_decide_eq_false H2] H3%bool_decide_eq_false]
          H4%bool_decide_eq_false].
  done.
Qed.

Lemma clean_element_kept (e : string) (out : list string) :
  is_element e = true → clean_element e out = e :: out.
Proof.
  intros (H1 & _ & H3 & H4)%is_element_parts. unfold clean_element.
  by rewrite !decide_False by done.
Qed.

(** A slash at the start of an element, an element followed by a slash,
    and the last element. *)
Lemma clean_scan_slash (rest : string) (out : list string) :
  clean_scan ("/" +:+ rest) "" out = clean_scan rest "" out.
Proof. done. Qed.

Lemma clean_scan_kept (e rest : string) (out : list string) :
  is_element e = true →
  clean_scan (e +:+ "/" +:+ rest) "" out = clean_scan rest "" (e :: out).
Proof.
  intros He. pose proof (is_element_parts e He) as (_ & Hslash & _).
  rewrite clean_scan_element by done.
  change ("/" +:+ rest) with (String "/" rest). cbn [clean_scan].
  rewrite decide_True by done.
  by rewrite string_app_nil_l, clean_element_kept.
Qed.

Lemma clean_scan_last (e : string) (out : list string) :
  is_element e = true → clean_scan e "" out = e :: out.
Proof.
  intros He. pose proof (is_element_parts e He) as (_ & Hslash & _).
  rewrite <- (string_app_nil_r e) at 1.
  rewrite clean_scan_element by done. cbn [clean_scan].
  by rewrite string_app_nil_l, clean_element_kept.
Qed.

Lemma last_byte_absent (c : ascii) (s : string) :
  contains_byte c s = false → last_byte s ≠ Some c.
Proof.
  induction s as [|a s IH]; [done |]. simpl.
  intros [Ha%bool_decide_eq_false Hs]%orb_false_iff.
  destruct s; [congruence | by apply IH].
Qed.

(** A trigger path with a clean index is clean, in both its forms. *)
Lemma cleanPath_trigger (s : string) :
  is_element s = true →
  cleanPath ("/api/jobs/" +:+ s) = "/api/jobs/" +:+ s
  ∧ cleanPath ("/api/jobs/" +:+ s +:+ "/run") = "/api/jobs/" +:+ s +:+ "/run".
Proof.
  intros Hs. pose proof (is_element_parts s Hs) as (Hne & Hslash & _).
  split.
  - assert (Clean ("/api/jobs/" +:+ s) = "/api/jobs/" +:+ s) as Hclean.
    { unfold Clean.
      change ("/api/jobs/" +:+ s)
        with ("/" +:+ ("api" +:+ "/" +:+ ("jobs" +:+ "/" +:+ s))) at 1.
      rewrite clean_scan_slash, !clean_scan_kept, clean_scan_last by done.
      cbn [rev app join_rooted]. by rewrite string_app_nil_r. }
    unfold cleanPath.
    change ("/api/jobs/" +:+ s) with (String "/" ("api/jobs/" +:+ s)) at 1.
    cbv beta iota zeta. rewrite decide_False by (by intros []).
    change (String "/" ("api/jobs/" +:+ s)) with ("/api/jobs/" +:+ s).
    rewrite Hclean.
    rewrite (bool_decide_eq_false_2 (last_byte _ = _)); [done |].
    rewrite last_byte_app by done. by apply last_byte_absent.
  - assert (Clean ("/api/jobs/" +:+ s +:+ "/run")
            = "/api/jobs/" +:+ s +:+ "/run") as Hclean.
    { unfold Clean.
      change ("/api/jobs/" +:+ s +:+ "/run")
        with ("/" +:+ ("api" +:+ "/" +:+ ("jobs" +:+ "/"
                         +:+ (s +:+ "/" +:+ "run")))) at 1.
      rewrite clean_scan_slash, !clean_scan_kept, clean_scan_last by done.
      cbn [rev app join_rooted]. done. }
    unfold cleanPath.
    change ("/api/jobs/" +:+ s +:+ "/run")
      with (String "/" ("api/jobs/" +:+ s +:+ "/run")) at 1.
    cbv beta iota zeta. rewrite decide_False by (by intros []).
    change (String "/" ("api/jobs/" +:+ s +:+ "/run"))
      with ("/api/jobs/" +:+ s +:+ "/run").
    rewrite Hclean.
    rewrite (bool_decide_eq_false_2 (last_byte _ = _)); [done |].
    replace ("/api/jobs/" +:+ s +:+ "/run")
      with (("/api/jobs/" +:+ s) +:+ "/run") by apply app_assoc_string.
    by rewrite last_byte_app.
Qed.

(** What [Atoi] accepts is a clean path element. *)
Lemma Atoi_element (s : string) : (Atoi s).2 = None → is_element s = true.
Proof.
  intros Hok. unfold is_element.
  destruct (contains_byte "/" s) eqn:Hslash.
  { by apply Atoi_slash in Hslash. }
  rewrite !(bool_decide_eq_false_2 (s = _)); [done | | |];
    intros ->; by vm_compute in Hok.
Qed.

(** A trigger path that the handler accepts is clean, so the multiplexer
    hands it to the handler. *)
Lemma accepted_path_clean (path : string) :
  HasPrefix path "/api/jobs/" = true →
  (Atoi (indexString path)).2 = None →
  cleanPath path = path.
Proof.
  intros (t & ->)%HasPrefix_inv. unfold indexString.
  rewrite TrimPrefix_app. unfold TrimSuffix.
  destruct (HasSuffix t "/run") eqn:Hrun.
  - destruct (HasSuffix_inv _ _ Hrun) as [s ->].
    pose proof (TrimSuffix_app s "/run") as Htrim. unfold TrimSuffix in Htrim.
    rewrite Hrun in Htrim. rewrite Htrim.
    intros Hok%Atoi_element. by apply cleanPath_trigger.
  - intros Hok%Atoi_element. by apply cleanPath_trigger.
Qed.

(** A request with a clean path reaches a handler. *)
Lemma clean_reaches_handler (r : Request) :
  cleanPath (URLPath r) = URLPath r → reaches_handler r = true.
Proof.
  intros Hclean. unfold reaches_handler.
  rewrite (bool_decide_eq_true_2 (cleanPath _ = _)) by done.
  rewrite orb_true_r, andb_true_r. apply negb_true_iff, bool_decide_eq_false.
  intros Hstar. rewrite Hstar in Hclean. done.
Qed.

(** The requests that reach a handler are answered by [serve]; every
    other request is answered by net/http, with 301, 400 or 200. *)
Lemma answer_handled {R : Type} (jobs : list Config.Job) (runnables : list R)
    (r : Request) :
  reaches_handler r = true →
  answer jobs runnables r
  = match serve jobs runnables r with
    | Some (resp, gs) => Handled resp gs
    | None => HandlerPanic
    end.
Proof.
  unfold reaches_handler, answer.
  intros [Hstar%negb_true_iff%bool_decide_eq_false Hclean]%andb_true_iff.
  rewrite decide_False by done.
  apply orb_true_iff in Hclean as [Hc%bool_decide_eq_true | Hc%bool_decide_eq_true].
  - by rewrite (bool_decide_eq_false_2 (Method r ≠ "CONNECT")) by (by intros []).
  - rewrite (bool_decide_eq_false_2 (cleanPath _ ≠ _)) by (by intros []).
    by rewrite andb_false_r.
Qed.

Lemma answer_not_handled {R : Type} (jobs : list Config.Job)
    (runnables : list R) (r : Request) :
  reaches_handler r = false →
  answerStatus (answer jobs runnables r) ∈ [Some 301; Some 400; Some 200].
Proof.
  unfold reaches_handler, answer. intros Hnot.
  rewrite !elem_of_cons.
  destruct (decide (URLPath r = "*")) as [Hstar|Hstar].
  { destruct (decide (Method r = "OPTIONS")); simpl; auto. }
  rewrite (bool_decide_eq_false_2 (URLPath r = "*")) in Hnot by done.
  simpl in Hnot. apply orb_false_iff in Hnot as [Hc Hp].
  apply bool_decide_eq_false in Hc, Hp.
  rewrite !bool_decide_eq_true_2 by done. simpl. auto.
Qed.

Lemma accepted_reaches_handler (r : Request) :
  HasPrefix (URLPath r) "/api/jobs/" = true →
  (Atoi (indexString (URLPath r))).2 = None →
  reaches_handler r = true.
Proof.
  intros Hsub Hok. by apply clean_reaches_handler, accepted_path_clean.
Qed.

End PathFacts.
(** * The control API, claim by claim *)

Import Strings Strconv HTTP API StringsFacts StrconvFacts ServerFacts.
Import PathFacts.

(** A [HEAD] changes neither the status nor the headers. *)
Lemma StatusCode_onHead (method : string) (resp : Response) :
  StatusCode (onHead method resp) = StatusCode resp.
Proof. unfold onHead. by case_decide. Qed.

Lemma Header_onHead (method : string) (resp : Response) :
  Header (onHead method resp) = Header resp.
Proof. unfold onHead. by case_decide. Qed.

Lemma Body_onHead (method : string) (resp : Response) :
  Body resp ≠ [] → Body (onHead method resp) = [] ↔ method = "HEAD".
Proof.
  intros Hbody. unfold onHead.
  destruct (decide (method = "HEAD")) as [Hm|Hm]; split; done.
Qed.

Lemma onHead_other (method : string) (resp : Response) :
  method ≠ "HEAD" → onHead method resp = resp.
Proof. intros Hm. unfold onHead. by rewrite decide_False. Qed.



(** C3. [GET /api/jobs] is answered with 200, [Content-Type:
    application/json] and an array with one object per configured job, in
    the order of the configuration, the object at position [k] carrying
    [index] = [k] (and the name of the [k]-th job). *)
Theorem listing_in_registry_order {R : Type} (jobs : list Config.Job)
    (runnables : list R) :
  ∃ arr : list JSON.Value,
    serve jobs runnables getJobs = Some (listingResponse arr, [])
    ∧ StatusCode (listingResponse arr) = 200
    ∧ Header (listingResponse arr) !! "Content-Type" = Some "application/json"
    ∧ length arr = length jobs
    ∧ ∀ (k : nat) (job : Config.Job),
        jobs !! k = Some job →
        ∃ obj, arr !! k = Some obj
               ∧ obj = marshalJobSummary (summarize k job)
               ∧ JSON.field "index" obj = Some (JSON.Number (Z.of_nat k))
               ∧ JSON.field "name" obj = Some (JSON.Str (Config.Name job)).
Proof.
  exists (marshalJobSummary <$> list_jobs 0 jobs []).
  rewrite serve_listing by done.
  split; [done |]. split; [done |]. split; [done |].
  split; [apply list_jobs_length |].
  intros k job Hk. rewrite list_jobs_lookup, Hk. eexists. split; [done |].
  split; [done |]. unfold summarize. by case_decide.
Qed.

(** C4. A job of the registry has an action: a non-empty [Run] or a
    non-empty [Command].  In the listing every such job is shown with
    exactly one of the fields [command] and [run], the one its [type]
    names: a job with a non-empty [Run] has type ["run"], its [run] and no
    [command]; a job with an empty [Run] (and so a non-empty [Command])
    has type ["rclone"], its [command] and no [run]. *)
Theorem listing_one_action_field {R : Type} (jobs : list Config.Job)
    (runnables : list R) :
  ∃ arr : list JSON.Value,
    serve jobs runnables getJobs = Some (listingResponse arr, [])
    ∧ ∀ (k : nat) (job : Config.Job),
        jobs !! k = Some job →
        Config.Run job ≠ "" ∨ Config.Command job ≠ "" →
        ∃ obj, arr !! k = Some obj
               ∧ one_action_field obj = true
               ∧ (Config.Run job ≠ "" →
                  JSON.field "type" obj = Some (JSON.Str "run")
                  ∧ JSON.field "run" obj = Some (JSON.Str (Config.Run job))
                  ∧ JSON.field "command" obj = None)
               ∧ (Config.Run job = "" →
                  JSON.field "type" obj = Some (JSON.Str "rclone")
                  ∧ JSON.field "command" obj
                    = Some (JSON.Str (Config.Command job))
                  ∧ JSON.field "run" obj = None).
Proof.
  exists (marshalJobSummary <$> list_jobs 0 jobs []).
  rewrite serve_listing by done. split; [done |].
  intros k job Hk Haction. rewrite list_jobs_lookup, Hk. eexists.
  split; [done |].
  unfold summarize, marshalJobSummary, one_action_field, JSON.omitempty.
  destruct (decide (Config.Run job ≠ "")) as [Hrun|Hrun]; simpl.
  - rewrite decide_False by done. by simpl.
  - apply dec_stable in Hrun. destruct Haction as [? | Hcmd]; [done |].
    rewrite (decide_False (P := Config.Command job = "")) by done.
    by simpl.
Qed.

(** C5. In the listing, a job with an empty schedule is shown with the
    schedule ["(on demand / startup)"], any other job with its own
    schedule string. *)
Theorem listing_schedule_placeholder {R : Type} (jobs : list Config.Job)
    (runnables : list R) :
  ∃ arr : list JSON.Value,
    serve jobs runnables getJobs = Some (listingResponse arr, [])
    ∧ ∀ (k : nat) (job : Config.Job),
        jobs !! k = Some job →
        ∃ obj, arr !! k = Some obj
               ∧ (Config.Schedule job = "" →
                  JSON.field "schedule" obj
                  = Some (JSON.Str "(on demand / startup)"))
               ∧ (Config.Schedule job ≠ "" →
                  JSON.field "schedule" obj
                  = Some (JSON.Str (Config.Schedule job))).
Proof.
  exists (marshalJobSummary <$> list_jobs 0 jobs []).
  rewrite serve_listing by done. split; [done |].
  intros k job Hk. rewrite list_jobs_lookup, Hk. eexists. split; [done |].
  unfold summarize.
  destruct (decide (Config.Schedule job = "")) as [Hs|Hs];
    (split; [intros ? | intros ?]); try done; by case_decide.
Qed.

(** C6. A request to [/api/jobs] with a method other than [GET], and a
    request that reaches the handler below [/api/jobs/] with a method
    other than [POST], is answered with a bare 405: no header is set,
    nothing is written to the body, and no runnable is started. *)
Theorem disallowed_method_405 {R : Type} (jobs : list Config.Job)
    (runnables : list R) (r : Request) :
  (URLPath r = "/api/jobs" ∧ Method r ≠ MethodGet)
  ∨ (HasPrefix (URLPath r) "/api/jobs/" = true ∧ reaches_handler r = true
     ∧ Method r ≠ MethodPost) →
  serve jobs runnables r = Some (methodNotAllowedResponse, [])
  ∧ StatusCode methodNotAllowedResponse = 405
  ∧ Header methodNotAllowedResponse = ∅
  ∧ Body methodNotAllowedResponse = [].
Proof.
  intros [[Hpath Hmeth] | (Hpath & _ & Hmeth)]; (split; [|done]).
  - by rewrite serve_listing, decide_True.
  - by rewrite serve_trigger, decide_True.
Qed.

(** C7. [GET /] and [GET /jobs] are answered with 200, a [Content-Type]
    of media type [text/html] and the dashboard page; a request that
    reaches a handler with any other path that is neither [/api/jobs] nor
    below [/api/jobs/] is answered with 404 (and, unless it is a [HEAD],
    with the text of [http.NotFound]). *)
Theorem ui_page_and_not_found {R : Type} (jobs : list Config.Job)
    (runnables : list R) (r : Request) :
  (Method r = MethodGet → URLPath r = "/" ∨ URLPath r = "/jobs" →
   serve jobs runnables r = Some (pageResponse, [])
   ∧ StatusCode pageResponse = 200
   ∧ mediaType <$> Header pageResponse !! "Content-Type" = Some "text/html"
   ∧ Body pageResponse = [Bytes Page.jobsPageHTML])
  ∧ (reaches_handler r = true →
     URLPath r ≠ "/" → URLPath r ≠ "/jobs" →
     URLPath r ≠ "/api/jobs" → HasPrefix (URLPath r) "/api/jobs/" = false →
     ∃ resp : Response,
       serve jobs runnables r = Some (resp, [])
       ∧ StatusCode resp = 404
       ∧ (Method r ≠ "HEAD" →
          resp = errorResponse "404 page not found" StatusNotFound)).
Proof.
  split.
  - intros Hmeth Hpath. split; [|done].
    rewrite serve_root, Hmeth.
    + destruct Hpath as [-> | ->]; done.
    + destruct Hpath as [-> | ->]; done.
    + destruct Hpath as [-> | ->]; done.
  - intros _ H1 H2 H3 H4. eexists. split.
    + by rewrite serve_root, !bool_decide_eq_true_2.
    + split; [by rewrite StatusCode_onHead |]. apply onHead_other.
Qed.

(** C8. Every request that reaches a handler is answered, and the status
    is one of 200, 202, 400, 404 and 405. *)
Theorem status_codes_documented {R : Type} (jobs : list Config.Job)
    (runnables : list R) (r : Request) :
  reaches_handler r = true →
  ∃ (resp : Response) (gs : list R),
    serve jobs runnables r = Some (resp, gs)
    ∧ StatusCode resp ∈ [200; 202; 400; 404; 405].
Proof.
  intros _.
  destruct (decide (URLPath r = "/api/jobs")) as [Hexact|Hexact].
  { rewrite serve_listing by done.
    case_decide; eexists _, _; (split; [done |]); set_solver. }
  destruct (HasPrefix (URLPath r) "/api/jobs/") eqn:Hsub.
  - rewrite serve_trigger by done.
    case_decide; [eexists _, _; split; [done | set_solver] |].
    destruct (Atoi (indexString (URLPath r))) as [index err].
    destruct (bool_decide (err ≠ None) || (index <? 0)
              || (Z.of_nat (length runnables) <=? index)) eqn:Hguard.
    { eexists _, _; split; [done | set_solver]. }
    apply orb_false_iff in Hguard as [[_ Hneg]%orb_false_iff Hlen].
    destruct (lookup_lt_is_Some_2 runnables (Z.to_nat index)) as [f ->]; [lia |].
    eexists _, _; split; [done | set_solver].
  - rewrite serve_root by done.
    case_match; eexists _, _; (split; [done |]);
      rewrite StatusCode_onHead; set_solver.
Qed.

(** C9. The handler of the page does not look at the method: a request
    for [/] or [/jobs] is answered with 200 and the [Content-Type] of the
    page whatever its method, never with 405, and with the dashboard page
    as its body for every method but [HEAD] (to which no server sends a
    body). *)
Theorem ui_ignores_method {R : Type} (jobs : list Config.Job)
    (runnables : list R) (r : Request) :
  URLPath r = "/" ∨ URLPath r = "/jobs" →
  reaches_handler r = true
  ∧ ∃ resp : Response,
      serve jobs runnables r = Some (resp, [])
      ∧ StatusCode resp = 200
      ∧ Header resp !! "Content-Type" = Some "text/html; charset=utf-8"
      ∧ (Method r ≠ "HEAD" →
         resp = pageResponse ∧ Body resp = [Bytes Page.jobsPageHTML]).
Proof.
  intros Hpath. split.
  { apply clean_reaches_handler. by destruct Hpath as [-> | ->]. }
  exists (onHead (Method r) pageResponse). split.
  { rewrite serve_root; destruct Hpath as [-> | ->]; done. }
  rewrite StatusCode_onHead, Header_onHead. split; [done |]. split; [done |].
  intros Hm. by rewrite onHead_other.
Qed.

(** C10. The trigger handler takes as index whatever [Atoi] accepts once
    the prefix and exactly one trailing [/run] are removed: [+1] and [007]
    name the jobs 1 and 7 and are answered with 202, while a request that
    reaches the handler with a doubled [/run] or with a trailing slash is
    answered with 400. *)
Theorem trigger_index_parsing {R : Type} (jobs : list Config.Job)
    (runnables : list R) :
  (∀ (r : Request) (index : Z) (f : R),
      Method r = MethodPost → HasPrefix (URLPath r) "/api/jobs/" = true →
      Atoi (indexString (URLPath r)) = (index, None) →
      0 ≤ index → runnables !! Z.to_nat index = Some f →
      reaches_handler r = true
      ∧ serve jobs runnables r = Some (acceptedResponse, [f]))
  ∧ (∀ s : string, indexString ("/api/jobs/" +:+ s +:+ "/run") = s)
  ∧ (∀ f : R, runnables !! 1%nat = Some f →
       reaches_handler (Samples.post "/api/jobs/+1") = true
       ∧ serve jobs runnables (Samples.post "/api/jobs/+1")
         = Some (acceptedResponse, [f]))
  ∧ (∀ f : R, runnables !! 7%nat = Some f →
       reaches_handler (Samples.post "/api/jobs/007") = true
       ∧ serve jobs runnables (Samples.post "/api/jobs/007")
         = Some (acceptedResponse, [f]))
  ∧ (∀ s : string,
       reaches_handler (Samples.post ("/api/jobs/" +:+ s +:+ "/run/run"))
       = true →
       serve jobs runnables (Samples.post ("/api/jobs/" +:+ s +:+ "/run/run"))
       = Some (errorResponse "invalid job index" StatusBadRequest, []))
  ∧ (∀ s : string,
       reaches_handler (Samples.post ("/api/jobs/" +:+ s +:+ "/")) = true →
       serve jobs runnables (Samples.post ("/api/jobs/" +:+ s +:+ "/"))
       = Some (errorResponse "invalid job index" StatusBadRequest, [])).
Proof.
  assert (∀ r index f,
      Method r = MethodPost → HasPrefix (URLPath r) "/api/jobs/" = true →
      Atoi (indexString (URLPath r)) = (index, None) →
      0 ≤ index → runnables !! Z.to_nat index = Some f →
      reaches_handler r = true
      ∧ serve jobs runnables r = Some (acceptedResponse, [f])) as Hok.
  { intros r index f Hmeth Hsub Hatoi Hlo Hf. split.
    { apply accepted_reaches_handler; [done |]. by rewrite Hatoi. }
    rewrite (serve_trigger jobs runnables r Hsub), decide_False, Hatoi, Hf
      by (by intros []).
    simpl. replace (index <? 0) with false by lia.
    apply lookup_lt_Some in Hf.
    by replace (Z.of_nat (length runnables) <=? index) with false by lia. }
  assert (∀ path,
      contains_byte "/" (indexString ("/api/jobs/" +:+ path)) = true →
      serve jobs runnables (Samples.post ("/api/jobs/" +:+ path))
      = Some (errorResponse "invalid job index" StatusBadRequest, [])) as Hbad.
  { intros path Hslash. apply Atoi_slash in Hslash.
    rewrite serve_trigger by apply HasPrefix_app.
    rewrite decide_False by (by intros []). cbn [URLPath Samples.post].
    destruct (Atoi (indexString ("/api/jobs/" +:+ path))) as [index err].
    simpl in Hslash. by rewrite bool_decide_eq_true_2. }
  split; [exact Hok |]. split; [apply indexString_run |].
  split; [intros f Hf; by apply (Hok _ 1) |].
  split; [intros f Hf; by apply (Hok _ 7) |].
  split; intros s _; apply Hbad.
  - replace (s +:+ "/run/run") with ((s +:+ "/run") +:+ "/run")
      by by rewrite app_assoc_string.
    rewrite indexString_run, contains_byte_app. apply orb_true_r.
  - unfold indexString. rewrite TrimPrefix_app. unfold TrimSuffix.
    rewrite HasSuffix_last.
    + rewrite contains_byte_app. apply orb_true_r.
    + done.
    + by rewrite last_byte_app.
Qed.

(** * The claims at sample inputs *)



(** The listing of the two sample jobs. *)
Lemma listing_in_registry_order_witness :
  ∃ arr : list JSON.Value,
    serve [Samples.nightly; Samples.cleanup] ([] : list unit) getJobs
    = Some (listingResponse arr, [])
    ∧ length arr = 2%nat
    ∧ ∃ obj, arr !! 1%nat = Some obj
             ∧ JSON.field "index" obj = Some (JSON.Number 1)
             ∧ JSON.field "name" obj = Some (JSON.Str "Cleanup").
Proof.
  destruct (listing_in_registry_order [Samples.nightly; Samples.cleanup]
              ([] : list unit)) as (arr & Hserve & _ & _ & Hlen & Hobj).
  exists arr. split; [exact Hserve |]. split; [exact Hlen |].
  destruct (Hobj 1%nat Samples.cleanup eq_refl) as (obj & Hk & _ & Hidx & Hname).
  exists obj. split; [exact Hk |]. split; [exact Hidx | exact Hname].
Defined.

(** The sample jobs are listed with one action field each. *)
Lemma listing_one_action_field_witness :
  ∃ arr : list JSON.Value,
    serve [Samples.nightly; Samples.cleanup] ([] : list unit) getJobs
    = Some (listingResponse arr, [])
    ∧ (∃ obj, arr !! 0%nat = Some obj
              ∧ one_action_field obj = true
              ∧ JSON.field "type" obj = Some (JSON.Str "rclone")
              ∧ JSON.field "command" obj = Some (JSON.Str "sync")
              ∧ JSON.field "run" obj = None)
    ∧ (∃ obj, arr !! 1%nat = Some obj
              ∧ one_action_field obj = true
              ∧ JSON.field "type" obj = Some (JSON.Str "run")
              ∧ JSON.field "run" obj = Some (JSON.Str "rm -rf /tmp/stale")
              ∧ JSON.field "command" obj = None).
Proof.
  destruct (listing_one_action_field [Samples.nightly; Samples.cleanup]
              ([] : list unit)) as (arr & Hserve & Hobj).
  exists arr. split; [exact Hserve |]. split.
  - assert (Config.Run Samples.nightly ≠ ""
            ∨ Config.Command Samples.nightly ≠ "") as Haction
      by (right; discriminate).
    destruct (Hobj 0%nat Samples.nightly eq_refl Haction)
      as (obj & Hk & Hone & _ & Hcmd).
    exists obj. split; [exact Hk |]. split; [exact Hone |]. exact (Hcmd eq_refl).
  - assert (Config.Run Samples.cleanup ≠ "") as Hrun by discriminate.
    destruct (Hobj 1%nat Samples.cleanup eq_refl (or_introl Hrun))
      as (obj & Hk & Hone & Hshown & _).
    exists obj. split; [exact Hk |]. split; [exact Hone |]. exact (Hshown Hrun).
Defined.

(** The schedules of the sample jobs as listed. *)
Lemma listing_schedule_placeholder_witness :
  ∃ arr : list JSON.Value,
    serve [Samples.nightly; Samples.cleanup] ([] : list unit) getJobs
    = Some (listingResponse arr, [])
    ∧ (∃ obj, arr !! 0%nat = Some obj
              ∧ JSON.field "schedule" obj = Some (JSON.Str "0 2 * * *"))
    ∧ (∃ obj, arr !! 1%nat = Some obj
              ∧ JSON.field "schedule" obj
                = Some (JSON.Str "(on demand / startup)")).
Proof.
  destruct (listing_schedule_placeholder [Samples.nightly; Samples.cleanup]
              ([] : list unit)) as (arr & Hserve & Hobj).
  exists arr. split; [exact Hserve |]. split.
  - assert (Config.Schedule Samples.nightly ≠ "") as Hset by discriminate.
    destruct (Hobj 0%nat Samples.nightly eq_refl) as (obj & Hk & _ & Hown).
    exists obj. split; [exact Hk |]. exact (Hown Hset).
  - destruct (Hobj 1%nat Samples.cleanup eq_refl) as (obj & Hk & Hnone & _).
    exists obj. split; [exact Hk |]. exact (Hnone eq_refl).
Defined.

(** [DELETE /api/jobs] and [GET /api/jobs/1/run]. *)
Lemma disallowed_method_405_witness :
  serve [Samples.nightly; Samples.cleanup] [10; 11]%nat
    {| Method := "DELETE"; URLPath := "/api/jobs" |}
  = Some (methodNotAllowedResponse, [])
  ∧ reaches_handler {| Method := "GET"; URLPath := "/api/jobs/1/run" |} = true
  ∧ serve [Samples.nightly; Samples.cleanup] [10; 11]%nat
      {| Method := "GET"; URLPath := "/api/jobs/1/run" |}
    = Some (methodNotAllowedResponse, []).
Proof.
  split; [|split; [reflexivity |]].
  - apply (disallowed_method_405 [Samples.nightly; Samples.cleanup]
             [10; 11]%nat {| Method := "DELETE"; URLPath := "/api/jobs" |}).
    left. split; [reflexivity | discriminate].
  - apply (disallowed_method_405 [Samples.nightly; Samples.cleanup]
             [10; 11]%nat {| Method := "GET"; URLPath := "/api/jobs/1/run" |}).
    right. split; [reflexivity |]. split; [reflexivity | discriminate].
Defined.

(** [GET /jobs] and [GET /favicon.ico]. *)
Lemma ui_page_and_not_found_witness :
  serve [Samples.nightly] [10]%nat {| Method := "GET"; URLPath := "/jobs" |}
  = Some (pageResponse, [])
  ∧ reaches_handler {| Method := "GET"; URLPath := "/favicon.ico" |} = true
  ∧ serve [Samples.nightly] [10]%nat
      {| Method := "GET"; URLPath := "/favicon.ico" |}
    = Some (errorResponse "404 page not found" StatusNotFound, []).
Proof.
  split; [|split; [reflexivity |]].
  - apply (ui_page_and_not_found [Samples.nightly] [10]%nat
             {| Method := "GET"; URLPath := "/jobs" |});
      [reflexivity | right; reflexivity].
  - assert (URLPath {| Method := "GET"; URLPath := "/favicon.ico" |} ≠ "/")
      as H1 by discriminate.
    assert (URLPath {| Method := "GET"; URLPath := "/favicon.ico" |} ≠ "/jobs")
      as H2 by discriminate.
    assert (URLPath {| Method := "GET"; URLPath := "/favicon.ico" |}
            ≠ "/api/jobs") as H3 by discriminate.
    assert (Method {| Method := "GET"; URLPath := "/favicon.ico" |} ≠ "HEAD")
      as H4 by discriminate.
    destruct (ui_page_and_not_found [Samples.nightly] [10]%nat
                {| Method := "GET"; URLPath := "/favicon.ico" |})
      as [_ Hother].
    destruct (Hother eq_refl H1 H2 H3 eq_refl) as (resp & Hserve & _ & Hbody).
    rewrite Hserve. f_equal. f_equal. exact (Hbody H4).
Defined.

(** [DELETE /] gets the page. *)
Lemma ui_ignores_method_witness :
  serve [Samples.nightly] [10]%nat {| Method := "DELETE"; URLPath := "/" |}
  = Some (pageResponse, []).
Proof.
  assert (Method {| Method := "DELETE"; URLPath := "/" |} ≠ "HEAD")
    as Hmeth by discriminate.
  destruct (ui_ignores_method [Samples.nightly] [10]%nat
              {| Method := "DELETE"; URLPath := "/" |} (or_introl eq_refl))
    as (_ & resp & Hserve & _ & _ & Hbody).
  destruct (Hbody Hmeth) as [-> _]. exact Hserve.
Defined.

(** Eight runnables: [+1], [007], a doubled [/run] and a trailing slash. *)
Lemma trigger_index_parsing_witness :
  serve [] [10; 11; 12; 13; 14; 15; 16; 17]%nat (Samples.post "/api/jobs/+1")
  = Some (acceptedResponse, [11%nat])
  ∧ serve [] [10; 11; 12; 13; 14; 15; 16; 17]%nat (Samples.post "/api/jobs/007")
    = Some (acceptedResponse, [17%nat])
  ∧ reaches_handler (Samples.post "/api/jobs/1/run/run") = true
  ∧ serve [] [10; 11; 12; 13; 14; 15; 16; 17]%nat
      (Samples.post "/api/jobs/1/run/run")
    = Some (errorResponse "invalid job index" StatusBadRequest, [])
  ∧ reaches_handler (Samples.post "/api/jobs/1/") = true
  ∧ serve [] [10; 11; 12; 13; 14; 15; 16; 17]%nat (Samples.post "/api/jobs/1/")
    = Some (errorResponse "invalid job index" StatusBadRequest, []).
Proof.
  destruct (trigger_index_parsing [] [10; 11; 12; 13; 14; 15; 16; 17]%nat)
    as (_ & _ & Hplus & Hzeros & Hdouble & Hslash).
  split; [exact (proj2 (Hplus 11%nat eq_refl)) |].
  split; [exact (proj2 (Hzeros 17%nat eq_refl)) |].
  split; [reflexivity |]. split; [exact (Hdouble "1" eq_refl) |].
  split; [reflexivity |]. exact (Hslash "1" eq_refl).
Defined.

(** * [Atoi] and decimal numerals *)

Module AtoiSpec.

Import Strings Strconv Numeral StringsFacts.

Lemma byte_val_range (c : ascii) : 0 ≤ byte_val c < 256.
Proof.
  unfold byte_val. pose proof (N_ascii_bounded c). lia.
Qed.

(** The byte test of the fast path is the digit test. *)
Lemma fast_digit_test (c : ascii) :
  (9 <? wrap_byte (byte_val c - 48)) = negb (is_digit c).
Proof.
  unfold wrap_byte, is_digit. pose proof (byte_val_range c) as Hc.
  destruct (Z_lt_ge_dec (byte_val c) 48) as [Hlt|Hge].
  - replace ((byte_val c - 48) mod 256) with (byte_val c + 208)
      by (apply (Z.mod_unique _ _ (-1)); lia).
    replace (48 <=? byte_val c) with false by lia. simpl. lia.
  - rewrite Z.mod_small by lia.
    replace (48 <=? byte_val c) with true by lia. simpl.
    destruct (Z.leb_spec (byte_val c) 57); lia.
Qed.

Lemma wrap_int_small (z : Z) : - 2 ^ 63 ≤ z < 2 ^ 63 → wrap_int z = z.
Proof. intros Hz. unfold wrap_int. rewrite Z.mod_small; lia. Qed.

Lemma pow10_pos (n : nat) : 0 < 10 ^ Z.of_nat n.
Proof. apply Z.pow_pos_nonneg; lia. Qed.

Lemma pow10_succ (n : nat) : 10 ^ Z.of_nat (S n) = 10 * 10 ^ Z.of_nat n.
Proof. rewrite Nat2Z.inj_succ, Z.pow_succ_r; lia. Qed.

(** The digits of [s] after [acc] denote a number between [acc] followed
    by zeros and [acc] followed by nines. *)
Lemma decimal_from_bounds (s : string) (acc v : Z) :
  0 ≤ acc → decimal_from s acc = Some v →
  acc * 10 ^ Z.of_nat (String.length s) ≤ v
  < (acc + 1) * 10 ^ Z.of_nat (String.length s).
Proof.
  revert acc. induction s as [|c s IH]; intros acc Hacc Hv.
  - injection Hv as <-. simpl. lia.
  - simpl in Hv. destruct (is_digit c) eqn:Hd; [|done].
    unfold is_digit in Hd. apply andb_true_iff in Hd as [Hlo Hhi].
    apply IH in Hv; [|lia].
    cbn [String.length]. rewrite pow10_succ.
    pose proof (pow10_pos (String.length s)). nia.
Qed.

(** The fast loop computes the number, as long as it fits. *)
Lemma atoi_digits_decimal (s : string) (n : Z) :
  0 ≤ n → (n + 1) * 10 ^ Z.of_nat (String.length s) ≤ 2 ^ 63 →
  atoi_digits s n = match decimal_from s n with
                    | Some v => (v, None)
                    | None => (0, Some ErrSyntax)
                    end.
Proof.
  revert n. induction s as [|c s IH]; intros n Hn Hfit; [done |].
  cbn [atoi_digits decimal_from]. rewrite fast_digit_test.
  destruct (is_digit c) eqn:Hd; [|done]. simpl.
  assert (wrap_byte (byte_val c - 48) = byte_val c - 48) as ->.
  { unfold is_digit in Hd. apply andb_true_iff in Hd as [Hlo Hhi].
    unfold wrap_byte. rewrite Z.mod_small; lia. }
  unfold is_digit in Hd. apply andb_true_iff in Hd as [Hlo Hhi].
  cbn [String.length] in Hfit. rewrite pow10_succ in Hfit.
  pose proof (pow10_pos (String.length s)).
  rewrite wrap_int_small by nia.
  apply IH; nia.
Qed.

Lemma pow10_18 (n : nat) : (n ≤ 18)%nat → 10 ^ Z.of_nat n ≤ 10 ^ 18.
Proof. intros Hn. apply Z.pow_le_mono_r; lia. Qed.

(** The fast path on a string of 1 to 18 bytes. *)
Lemma atoi_fast_numeral (s : string) :
  (0 < String.length s < 19)%nat →
  match numeral s with
  | Some v => atoi_fast s = (v, None) ∧ is_int v = true
  | None => (atoi_fast s).2 ≠ None
  end.
Proof.
  destruct s as [|c0 rest]; [simpl; lia |]. intros Hlen.
  cbn [String.length] in Hlen.
  unfold numeral, atoi_fast.
  rewrite (orb_comm (bool_decide (c0 = "-"%char))).
  destruct (bool_decide (c0 = "+"%char) || bool_decide (c0 = "-"%char))
    eqn:Hsign; cbv beta zeta iota delta [andb].
  - destruct rest as [|c1 rest]; [done |].
    replace (String.length (String c1 rest) <? 1)%nat with false
      by (cbn [String.length]; symmetry; apply Nat.ltb_ge; lia).
    rewrite atoi_digits_decimal; [|lia|].
    2:{ pose proof (pow10_18 (String.length (String c1 rest))
                      ltac:(cbn [String.length] in *; lia)). lia. }
    destruct (decimal_from (String c1 rest) 0) as [n|] eqn:Hdec; [|done].
    apply decimal_from_bounds in Hdec; [|lia].
    pose proof (pow10_18 (String.length (String c1 rest))
                  ltac:(cbn [String.length] in *; lia)).
    simpl fmap. unfold is_int.
    destruct (bool_decide (c0 = "-"%char)).
    + rewrite wrap_int_small by lia. split; [done | lia].
    + split; [done | lia].
  - apply orb_false_iff in Hsign as [_ Hminus]. rewrite Hminus.
    rewrite atoi_digits_decimal; [|lia|].
    2:{ pose proof (pow10_18 (String.length (String c0 rest))
                      ltac:(cbn [String.length] in *; lia)). lia. }
    destruct (decimal_from (String c0 rest) 0) as [n|] eqn:Hdec; [|done].
    apply decimal_from_bounds in Hdec; [|lia].
    pose proof (pow10_18 (String.length (String c0 rest))
                  ltac:(cbn [String.length] in *; lia)).
    simpl fmap. unfold is_int. split; [done | lia].
Qed.

(** The loop of [ParseUint] computes the number when it fits 64 bits and
    fails when it does not. *)
Lemma parseUint_digits_decimal (s : string) (n : Z) :
  0 ≤ n ≤ maxUint64 →
  match decimal_from s n with
  | Some v => parseUint_digits s n
              = if v <=? maxUint64 then (v, None)
                else (maxUint64, Some ErrRange)
  | None => parseUint_digits s n = (0, Some ErrSyntax)
            ∨ parseUint_digits s n = (maxUint64, Some ErrRange)
  end.
Proof.
  revert n. induction s as [|c s IH]; intros n Hn.
  { simpl. by replace (n <=? maxUint64) with true by lia. }
  cbn [parseUint_digits decimal_from]. fold (is_digit c).
  destruct (is_digit c) eqn:Hd; [|by left].
  unfold is_digit in Hd. apply andb_true_iff in Hd as [Hlo Hhi].
  cbv zeta. unfold maxUint64 in *.
  change ((2 ^ 64 - 1) / 10 + 1) with 1844674407370955162.
  destruct (Z.leb_spec 1844674407370955162 n) as [Hcut|Hcut].
  { destruct (decimal_from s (n * 10 + (byte_val c - 48))) as [v|] eqn:Hdec;
      [|by right].
    apply decimal_from_bounds in Hdec; [|lia].
    pose proof (pow10_pos (String.length s)).
    replace (v <=? 2 ^ 64 - 1) with false by nia. done. }
  destruct (Z.ltb_spec (2 ^ 64 - 1) (n * 10 + (byte_val c - 48))) as [Hmax|Hmax].
  { destruct (decimal_from s (n * 10 + (byte_val c - 48))) as [v|] eqn:Hdec;
      [|by right].
    apply decimal_from_bounds in Hdec; [|lia].
    pose proof (pow10_pos (String.length s)).
    replace (v <=? 2 ^ 64 - 1) with false by nia. done. }
  apply IH. lia.
Qed.

(** [ParseInt] on any string. *)
Lemma ParseInt_numeral (s : string) :
  match numeral s with
  | Some v => if is_int v then ParseInt s = (v, None)
              else (ParseInt s).2 ≠ None
  | None => (ParseInt s).2 ≠ None
  end.
Proof.
  destruct s as [|c0 rest]; [done |]. unfold numeral, ParseInt.
  set (neg := bool_decide (c0 = "-"%char)).
  set (body := if bool_decide (c0 = "+"%char) || neg then rest
               else String c0 rest).
  destruct body as [|c1 body'] eqn:Hbody; [done |].
  unfold ParseUint.
  pose proof (parseUint_digits_decimal (String c1 body') 0
                ltac:(unfold maxUint64; lia)) as Hloop.
  destruct (decimal_from (String c1 body') 0) as [n|] eqn:Hdec.
  - apply decimal_from_bounds in Hdec as [Hn _]; [|lia].
    rewrite Hloop. simpl fmap. unfold is_int, maxUint64 in *.
    destruct neg; simpl negb; cbv beta zeta iota delta [andb];
      repeat match goal with
             | |- context [?a <=? ?b] => destruct (Z.leb_spec a b)
             | |- context [?a <? ?b] => destruct (Z.ltb_spec a b)
             end; simpl; try done; lia.
  - simpl fmap. destruct Hloop as [-> | ->]; [done |].
    unfold maxUint64. by destruct neg.
Qed.

(** [Atoi] accepts exactly the optionally signed decimal numerals whose
    value is an [int], and returns that value; the fast path and
    [ParseInt] agree on this. *)
Lemma Atoi_numeral (s : string) :
  match numeral s with
  | Some v => if is_int v then Atoi s = (v, None) else (Atoi s).2 ≠ None
  | None => (Atoi s).2 ≠ None
  end.
Proof.
  unfold Atoi.
  destruct ((0 <? String.length s)%nat && (String.length s <? 19)%nat)
    eqn:Hlen; [|apply ParseInt_numeral].
  apply andb_true_iff in Hlen as [Hlo%Nat.ltb_lt Hhi%Nat.ltb_lt].
  pose proof (atoi_fast_numeral s (conj Hlo Hhi)) as Hfast.
  destruct (numeral s) as [v|]; [|done].
  destruct Hfast as [-> ->]. done.
Qed.

End AtoiSpec.

(** * Printing and reading an index *)

Module IndexRoundTrip.

Import Strings Strconv Numeral AtoiSpec.

Lemma pretty_N_char_digit (d : N) :
  (d < 10)%N →
  is_digit (pretty_N_char d) = true
  ∧ byte_val (pretty_N_char d) - 48 = Z.of_N d.
Proof.
  intros Hd.
  assert (d = 0 ∨ d = 1 ∨ d = 2 ∨ d = 3 ∨ d = 4 ∨ d = 5 ∨ d = 6 ∨ d = 7
          ∨ d = 8 ∨ d = 9)%N as Hcases by lia.
  repeat (destruct Hcases as [-> | Hcases]; [done |]). by subst.
Qed.

(** Reading the digits that [pretty_N_go] puts in front of [s] shifts the
    number read so far and adds [x]. *)
Lemma decimal_from_pretty_go (x : N) :
  ∃ P : Z, 0 < P ∧ ∀ (s : string) (acc : Z),
    decimal_from (pretty_N_go x s) acc = decimal_from s (acc * P + Z.of_N x).
Proof.
  induction (N.lt_wf_0 x) as [x _ IH].
  destruct (N.eq_dec x 0) as [-> | Hx].
  { exists 1. split; [lia |]. intros s acc. rewrite pretty_N_go_0.
    f_equal. lia. }
  destruct (IH (x `div` 10)%N) as (P & HP & Hread).
  { apply N.div_lt; lia. }
  exists (P * 10). split; [lia |]. intros s acc.
  rewrite pretty_N_go_step by lia. rewrite Hread. cbn [decimal_from].
  destruct (pretty_N_char_digit (x `mod` 10)%N) as [-> ->].
  { apply N.mod_lt. lia. }
  f_equal. rewrite (N.div_mod x 10) at 3 by lia.
  rewrite N2Z.inj_add, N2Z.inj_mul. change (Z.of_N 10) with 10. lia.
Qed.

(** A non-empty string of digits is a numeral. *)
Lemma numeral_digits (s : string) (v : Z) :
  s ≠ EmptyString → decimal_from s 0 = Some v → numeral s = Some v.
Proof.
  destruct s as [|c rest]; [done |]. intros _ Hdec. unfold numeral.
  assert (is_digit c = true) as Hd.
  { simpl in Hdec. by destruct (is_digit c). }
  assert (bool_decide (c = "+"%char) = false) as ->.
  { apply bool_decide_eq_false_2. intros ->. by vm_compute in Hd. }
  assert (bool_decide (c = "-"%char) = false) as ->.
  { apply bool_decide_eq_false_2. intros ->. by vm_compute in Hd. }
  simpl orb. cbv iota. by rewrite Hdec.
Qed.

(** A non-negative integer printed in decimal reads back as itself. *)
Lemma numeral_pretty (z : Z) : 0 ≤ z → numeral (pretty z) = Some z.
Proof.
  intros Hz. destruct z as [|p|p]; [done | | lia].
  change (pretty (Z.pos p)) with (pretty_N_go (N.pos p) "").
  destruct (decimal_from_pretty_go (N.pos p)) as (P & _ & Hread).
  specialize (Hread "" 0). simpl in Hread.
  apply numeral_digits; [|done].
  intros Hempty. rewrite Hempty in Hread. done.
Qed.

(** [Atoi] undoes decimal printing on the non-negative [int]s. *)
Lemma Atoi_pretty (z : Z) : 0 ≤ z < 2 ^ 63 → Atoi (pretty z) = (z, None).
Proof.
  intros Hz. pose proof (Atoi_numeral (pretty z)) as Hspec.
  rewrite numeral_pretty in Hspec by lia.
  assert (is_int z = true) as Hint by (unfold is_int; lia).
  by rewrite Hint in Hspec.
Qed.

End IndexRoundTrip.

(** * Further properties of the control API *)

Import Numeral AtoiSpec IndexRoundTrip.

(** X1. A request starts at most one runnable, and it starts one exactly
    when it is answered 202: then it is a [POST] below [/api/jobs/], the
    response is the accepted one, and the runnable is the one at the index
    [Atoi] read.  Every other request starts nothing. *)
Theorem runnable_started_iff_accepted {R : Type} (jobs : list Config.Job)
    (runnables : list R) (r : Request) :
  ∃ (resp : Response) (gs : list R),
    serve jobs runnables r = Some (resp, gs)
    ∧ ((gs = [] ∧ StatusCode resp ≠ 202)
       ∨ (∃ (index : Z) (f : R),
            gs = [f] ∧ resp = acceptedResponse
            ∧ Method r = MethodPost
            ∧ HasPrefix (URLPath r) "/api/jobs/" = true
            ∧ Atoi (indexString (URLPath r)) = (index, None)
            ∧ 0 ≤ index
            ∧ runnables !! Z.to_nat index = Some f)).
Proof.
  destruct (decide (URLPath r = "/api/jobs")) as [Hexact|Hexact].
  { rewrite serve_listing by done.
    case_decide; eexists _, _; (split; [done |]); by left. }
  destruct (HasPrefix (URLPath r) "/api/jobs/") eqn:Hsub.
  - rewrite serve_trigger by done.
    case_decide as Hmeth; [eexists _, _; split; [done | by left] |].
    destruct (Atoi (indexString (URLPath r))) as [index err] eqn:Hatoi.
    destruct (bool_decide (err ≠ None) || (index <? 0)
              || (Z.of_nat (length runnables) <=? index)) eqn:Hguard.
    { eexists _, _; split; [done | by left]. }
    apply orb_false_iff in Hguard as [[Herr Hneg]%orb_false_iff Hlen].
    apply bool_decide_eq_false in Herr. apply dec_stable in Herr. subst err.
    destruct (lookup_lt_is_Some_2 runnables (Z.to_nat index)) as [f Hf]; [lia |].
    rewrite Hf. eexists _, _; split; [done |]. right.
    exists index, f. repeat split; try done. lia.
  - rewrite serve_root by done.
    case_match; eexists _, _; (split; [done |]); left;
      by rewrite StatusCode_onHead.
Qed.

(** X2. For a request that reaches a handler the status tells the route:
    405 comes only from [/api/jobs] with a method other than [GET] or from
    below [/api/jobs/] with a method other than [POST]; 400 only from a
    [POST] below [/api/jobs/]; 404 only from a path that is none of [/],
    [/jobs], [/api/jobs] and not below [/api/jobs/]; 200 only from
    [GET /api/jobs] or from the paths [/] and [/jobs]. *)
Theorem status_identifies_route {R : Type} (jobs : list Config.Job)
    (runnables : list R) (r : Request) :
  reaches_handler r = true →
  ∃ (resp : Response) (gs : list R),
    serve jobs runnables r = Some (resp, gs)
    ∧ (StatusCode resp = 405 →
       (URLPath r = "/api/jobs" ∧ Method r ≠ MethodGet)
       ∨ (HasPrefix (URLPath r) "/api/jobs/" = true ∧ Method r ≠ MethodPost))
    ∧ (StatusCode resp = 400 →
       HasPrefix (URLPath r) "/api/jobs/" = true ∧ Method r = MethodPost)
    ∧ (StatusCode resp = 404 →
       URLPath r ≠ "/" ∧ URLPath r ≠ "/jobs" ∧ URLPath r ≠ "/api/jobs"
       ∧ HasPrefix (URLPath r) "/api/jobs/" = false)
    ∧ (StatusCode resp = 200 →
       (URLPath r = "/api/jobs" ∧ Method r = MethodGet)
       ∨ URLPath r = "/" ∨ URLPath r = "/jobs").
Proof.
  intros _.
  destruct (decide (URLPath r = "/api/jobs")) as [Hexact|Hexact].
  { rewrite serve_listing by done.
    case_decide as Hmeth; eexists _, _; (split; [done |]);
      repeat split; try done.
    - intros _. by left.
    - intros _. by left. }
  destruct (HasPrefix (URLPath r) "/api/jobs/") eqn:Hsub.
  - rewrite serve_trigger by done.
    case_decide as Hmeth.
    { eexists _, _; split; [done |]. repeat split; try done.
      intros _. by right. }
    destruct (Atoi (indexString (URLPath r))) as [index err].
    destruct (bool_decide (err ≠ None) || (index <? 0)
              || (Z.of_nat (length runnables) <=? index)) eqn:Hguard.
    { eexists _, _; split; [done |]. repeat split; done. }
    apply orb_false_iff in Hguard as [[_ Hneg]%orb_false_iff Hlen].
    destruct (lookup_lt_is_Some_2 runnables (Z.to_nat index)) as [f ->]; [lia |].
    eexists _, _; split; [done |]. repeat split; done.
  - rewrite serve_root by done.
    destruct (bool_decide (URLPath r ≠ "/") && bool_decide (URLPath r ≠ "/jobs"))
      eqn:Hpage.
    + apply andb_true_iff in Hpage as [H1%bool_decide_eq_true H2%bool_decide_eq_true].
      eexists _, _; split; [done |]. rewrite StatusCode_onHead.
      repeat split; done.
    + eexists _, _; split; [done |]. rewrite StatusCode_onHead.
      repeat split; try done.
      intros _. right.
      apply andb_false_iff in Hpage as [H1%bool_decide_eq_false|H2%bool_decide_eq_false].
      * left. by apply dec_stable in H1.
      * right. by apply dec_stable in H2.
Qed.

(** X3. Which indices a trigger accepts.  With at most 2^63 runnables (the
    length of a slice is an [int]), a [POST] below [/api/jobs/] is accepted
    exactly when the index string is an optionally signed decimal numeral
    whose value is at least 0 and below the number of runnables, and then
    it starts the runnable at that value; otherwise the request, if it
    reaches the handler, is answered 400. *)
Theorem trigger_accepts_numerals {R : Type} (jobs : list Config.Job)
    (runnables : list R) (r : Request) :
  Method r = MethodPost →
  HasPrefix (URLPath r) "/api/jobs/" = true →
  Z.of_nat (length runnables) ≤ 2 ^ 63 →
  (∀ v : Z,
      numeral (indexString (URLPath r)) = Some v →
      0 ≤ v < Z.of_nat (length runnables) →
      reaches_handler r = true
      ∧ ∃ f, runnables !! Z.to_nat v = Some f
             ∧ serve jobs runnables r = Some (acceptedResponse, [f]))
  ∧ (reaches_handler r = true →
     numeral (indexString (URLPath r)) = None
     ∨ (∃ v, numeral (indexString (URLPath r)) = Some v
             ∧ (v < 0 ∨ Z.of_nat (length runnables) ≤ v)) →
     serve jobs runnables r
     = Some (errorResponse "invalid job index" StatusBadRequest, [])).
Proof.
  intros Hmeth Hsub Hlen.
  rewrite (serve_trigger jobs runnables r Hsub), decide_False
    by (by intros []).
  pose proof (Atoi_numeral (indexString (URLPath r))) as Hspec.
  pose proof (accepted_reaches_handler r Hsub) as Hreach.
  destruct (Atoi (indexString (URLPath r))) as [index err]. split.
  - intros v Hv [Hlo Hhi]. rewrite Hv in Hspec.
    replace (is_int v) with true in Hspec by (unfold is_int; lia).
    injection Hspec as -> ->. split; [by apply Hreach |].
    destruct (lookup_lt_is_Some_2 runnables (Z.to_nat v)) as [f Hf]; [lia |].
    exists f. rewrite Hf. simpl.
    replace (v <? 0) with false by lia.
    by replace (Z.of_nat (length runnables) <=? v) with false by lia.
  - intros _ [Hnone | (v & Hv & Hout)].
    + rewrite Hnone in Hspec. simpl in Hspec.
      by rewrite bool_decide_eq_true_2.
    + rewrite Hv in Hspec. destruct (is_int v) eqn:Hint.
      * injection Hspec as -> ->. simpl.
        destruct Hout.
        -- by replace (v <? 0) with true by lia.
        -- replace (Z.of_nat (length runnables) <=? v) with true by lia.
           by rewrite orb_true_r.
      * simpl in Hspec. by rewrite bool_decide_eq_true_2.
Qed.

(** X4. The shape of a listed object.  Its members are, in this order,
    [index], [name], [schedule], then [run] when the job has a run line,
    else [command] when it has a command, and last [type]; [name] is the
    job's name as configured.  A job with both a run line and a command is
    listed as type ["run"] and its command is left out. *)
Theorem listing_object_shape {R : Type} (jobs : list Config.Job)
    (runnables : list R) :
  ∃ arr : list JSON.Value,
    serve jobs runnables getJobs = Some (listingResponse arr, [])
    ∧ ∀ (k : nat) (job : Config.Job),
        jobs !! k = Some job →
        ∃ fields : list (string * JSON.Value),
          arr !! k = Some (JSON.Object fields)
          ∧ fields.*1
            = (if decide (Config.Run job ≠ "")
               then ["index"; "name"; "schedule"; "run"; "type"]
               else if decide (Config.Command job ≠ "")
               then ["index"; "name"; "schedule"; "command"; "type"]
               else ["index"; "name"; "schedule"; "type"])
          ∧ JSON.assoc "name" fields = Some (JSON.Str (Config.Name job))
          ∧ JSON.assoc "type" fields
            = Some (JSON.Str (if decide (Config.Run job ≠ "") then "run"
                              else "rclone")).
Proof.
  exists (marshalJobSummary <$> list_jobs 0 jobs []).
  rewrite serve_listing by done. split; [done |].
  intros k job Hk. rewrite list_jobs_lookup, Hk. eexists. split; [done |].
  unfold summarize, JSON.omitempty, JSON.member.
  destruct (decide (Config.Run job ≠ "")) as [Hrun|Hrun]; simpl.
  - by rewrite decide_False by done.
  - apply dec_stable in Hrun.
    destruct (decide (Config.Command job ≠ "")) as [Hcmd|Hcmd].
    + by rewrite decide_False by done.
    + apply dec_stable in Hcmd. by rewrite decide_True by done.
Qed.

(** X5. Jobs added at the end of the configuration leave the listing of
    the jobs before them as it was: the listing of [jobs ++ more] is the
    listing of [jobs] followed by one object per added job. *)
Theorem listing_append {R : Type} (jobs more : list Config.Job)
    (runnables : list R) :
  ∃ arr arr' : list JSON.Value,
    serve jobs runnables getJobs = Some (listingResponse arr, [])
    ∧ serve (jobs ++ more) runnables getJobs
      = Some (listingResponse (arr ++ arr'), [])
    ∧ length arr = length jobs
    ∧ length arr' = length more.
Proof.
  exists (marshalJobSummary <$> list_jobs 0 jobs []),
         (marshalJobSummary <$> list_jobs (length jobs) more []).
  rewrite !serve_listing by done. simpl.
  split; [done |]. split.
  - do 3 f_equal. rewrite !list_jobs_spec, !app_nil_l, imap_app, fmap_app.
    done.
  - split; [apply list_jobs_length |].
    by rewrite list_jobs_spec, app_nil_l, length_fmap, length_imap.
Qed.

(** X6. With no runnable registered nothing can be triggered: every
    [POST] that reaches the handler below [/api/jobs/] is answered 400,
    whatever the index. *)
Theorem no_runnables_no_trigger {R : Type} (jobs : list Config.Job)
    (r : Request) :
  Method r = MethodPost →
  HasPrefix (URLPath r) "/api/jobs/" = true →
  reaches_handler r = true →
  serve jobs ([] : list R) r
  = Some (errorResponse "invalid job index" StatusBadRequest, []).
Proof.
  intros Hmeth Hsub _.
  rewrite (serve_trigger jobs [] r Hsub), decide_False by (by intros []).
  destruct (Atoi (indexString (URLPath r))) as [index err].
  destruct (bool_decide (err ≠ None)); [done |].
  destruct (Z.ltb_spec index 0); [done |].
  destruct (Z.leb_spec (Z.of_nat (length ([] : list R))) index) as [|Hlt];
    [done |].
  simpl in Hlt. lia.
Qed.

(** X7. The two forms of a trigger path are one route: for any method, a
    request for [/api/jobs/{index}/run] gets the response, and starts the
    runnable, of the request for [/api/jobs/{index}], as long as the index
    does not itself end in [/run] and both requests reach the handler. *)
Theorem run_suffix_alias {R : Type} (jobs : list Config.Job)
    (runnables : list R) (method s : string) :
  HasSuffix s "/run" = false →
  reaches_handler
    {| Method := method; URLPath := "/api/jobs/" +:+ s +:+ "/run" |} = true →
  reaches_handler
    {| Method := method; URLPath := "/api/jobs/" +:+ s |} = true →
  serve jobs runnables
    {| Method := method; URLPath := "/api/jobs/" +:+ s +:+ "/run" |}
  = serve jobs runnables
      {| Method := method; URLPath := "/api/jobs/" +:+ s |}.
Proof.
  intros Hs _ _.
  rewrite !serve_trigger by apply HasPrefix_app. cbn [Method URLPath].
  by rewrite indexString_run, indexString_bare.
Qed.

(** X8. The dashboard's button and the API.  For the object at position
    [k] of the listing (with [k] below 2^53, so that the script prints its
    [index] exactly), the request the "Run now" button sends is accepted
    and starts the runnable at position [k] when there is one, and is
    answered 400 when the runnables are fewer than the configured jobs. *)
Theorem dashboard_run_now {R : Type} (jobs : list Config.Job)
    (runnables : list R) :
  ∃ arr : list JSON.Value,
    serve jobs runnables getJobs = Some (listingResponse arr, [])
    ∧ ∀ (k : nat) (obj : JSON.Value) (i : Z),
        arr !! k = Some obj →
        JSON.field "index" obj = Some (JSON.Number i) →
        Z.of_nat k < 2 ^ 53 →
        match runnables !! k with
        | Some f => serve jobs runnables (Dashboard.runNow i)
                    = Some (acceptedResponse, [f])
        | None => serve jobs runnables (Dashboard.runNow i)
                  = Some (errorResponse "invalid job index" StatusBadRequest, [])
        end.
Proof.
  exists (marshalJobSummary <$> list_jobs 0 jobs []).
  rewrite serve_listing by done. split; [done |].
  intros k obj i Hk Hidx Hsafe.
  rewrite list_jobs_lookup in Hk.
  destruct (jobs !! k) as [job|]; [|done]. injection Hk as <-.
  assert (i = Z.of_nat k) as ->.
  { unfold summarize in Hidx. case_decide; by injection Hidx. }
  rewrite serve_trigger by apply HasPrefix_app.
  cbn [Method URLPath Dashboard.runNow].
  rewrite decide_False by (by intros []).
  rewrite indexString_run, Atoi_pretty by lia. simpl.
  replace (Z.of_nat k <? 0) with false by lia. rewrite Nat2Z.id.
  destruct (runnables !! k) as [f|] eqn:Hf.
  - apply lookup_lt_Some in Hf.
    by replace (Z.of_nat (length runnables) <=? Z.of_nat k) with false by lia.
  - apply lookup_ge_None in Hf.
    by replace (Z.of_nat (length runnables) <=? Z.of_nat k) with true by lia.
Qed.

(** X9. Every body is declared: a request that reaches a handler gets
    either the bare 405 or a response that carries a [Content-Type] the
    handler has set (so the server never has to guess one); such a
    response has a body, unless the request is a [HEAD]. *)
Theorem body_has_content_type {R : Type} (jobs : list Config.Job)
    (runnables : list R) (r : Request) :
  reaches_handler r = true →
  ∃ (resp : Response) (gs : list R),
    serve jobs runnables r = Some (resp, gs)
    ∧ ((Body resp = [] ∧ resp = methodNotAllowedResponse)
       ∨ (is_Some (Header resp !! "Content-Type")
          ∧ (Body resp = [] ↔ Method r = "HEAD"))).
Proof.
  intros _.
  destruct (decide (URLPath r = "/api/jobs")) as [Hexact|Hexact].
  { rewrite serve_listing by done.
    case_decide as Hmeth; eexists _, _; (split; [done |]); [by left |].
    right. split; [done |]. rewrite Hmeth. done. }
  destruct (HasPrefix (URLPath r) "/api/jobs/") eqn:Hsub.
  - rewrite serve_trigger by done.
    case_decide as Hmeth; [eexists _, _; split; [done | by left] |].
    destruct (Atoi (indexString (URLPath r))) as [index err].
    destruct (bool_decide (err ≠ None) || (index <? 0)
              || (Z.of_nat (length runnables) <=? index)) eqn:Hguard.
    { eexists _, _; split; [done |]. right. split; [done |].
      rewrite Hmeth. done. }
    apply orb_false_iff in Hguard as [[_ Hneg]%orb_false_iff Hlen].
    destruct (lookup_lt_is_Some_2 runnables (Z.to_nat index)) as [f ->]; [lia |].
    eexists _, _; split; [done |]. right. split; [done |].
    rewrite Hmeth. done.
  - rewrite serve_root by done.
    case_match; eexists _, _; (split; [done |]); right;
      rewrite Header_onHead; (split; [done |]); by apply Body_onHead.
Qed.

(** * The command line of the release script *)

Module ReleaseFacts.

Import Numeral Release StringsFacts.

Lemma glob_star_unfold (p : list Glob) (s : string) :
  glob_match (Star :: p) s
  = glob_match p s
    || match s with
       | String _ s' => glob_match (Star :: p) s'
       | EmptyString => false
       end.
Proof. by destruct s. Qed.

(** A star followed by [p] matches the strings with a suffix that [p]
    matches. *)
Lemma glob_star (p : list Glob) (s : string) :
  glob_match (Star :: p) s = true
  ↔ ∃ a b : string, s = a +:+ b ∧ glob_match p b = true.
Proof.
  split.
  - induction s as [|c s IH]; rewrite glob_star_unfold.
    + rewrite orb_false_r. intros H. by exists EmptyString, EmptyString.
    + intros [H | H]%orb_true_iff.
      * by exists EmptyString, (String c s).
      * destruct (IH H) as (a & b & -> & Hb). by exists (String c a), b.
  - intros (a & b & -> & Hb). induction a as [|c a IH].
    + rewrite string_app_nil_l, glob_star_unfold, Hb. done.
    + rewrite string_app_cons, glob_star_unfold, IH. apply orb_true_r.
Qed.

Lemma glob_star_end (s : string) : glob_match [Star] s = true.
Proof.
  induction s as [|c s IH]; [done |].
  rewrite glob_star_unfold, IH. apply orb_true_r.
Qed.

Lemma glob_digit (p : list Glob) (s : string) :
  glob_match (Digit :: p) s = true
  ↔ ∃ (d : ascii) (s' : string),
      s = String d s' ∧ is_digit d = true ∧ glob_match p s' = true.
Proof.
  destruct s as [|c s]; simpl.
  - split; [done | by intros (? & ? & ? & _)].
  - rewrite andb_true_iff. split.
    + intros [Hd Hp]. by exists c, s.
    + intros (d & s' & [= -> ->] & Hd & Hp). done.
Qed.

Lemma glob_lit (c : ascii) (p : list Glob) (s : string) :
  glob_match (Lit c :: p) s = true
  ↔ ∃ s' : string, s = String c s' ∧ glob_match p s' = true.
Proof.
  destruct s as [|a s]; simpl.
  - split; [done | by intros (? & ? & _)].
  - rewrite andb_true_iff, bool_decide_eq_true. split.
    + intros [-> Hp]. by exists s.
    + intros (s' & [= -> ->] & Hp). done.
Qed.

End ReleaseFacts.

Import Release ReleaseFacts.

(** X10. What the script takes for an explicit version: an argument
    matches [[0-9]*.[0-9]*.[0-9]*] exactly when it starts with a digit and
    has, later on, two dots that are each followed at once by a digit;
    anything may stand in between and after.  (So [1.2.3] and [1.2.3-rc1]
    match, [1.2] and [v1.2.3] do not.) *)
Theorem version_glob_spec (arg : string) :
  glob_match version_glob arg = true
  ↔ ∃ (d1 d2 d3 : ascii) (a b c : string),
      is_digit d1 = true ∧ is_digit d2 = true ∧ is_digit d3 = true
      ∧ arg = String d1 (a +:+ String "." (String d2
                (b +:+ String "." (String d3 c)))).
Proof.
  unfold version_glob. rewrite glob_digit. split.
  - intros (d1 & s1 & -> & Hd1 & H).
    apply glob_star in H as (a & s2 & -> & H).
    apply glob_lit in H as (s3 & -> & H).
    apply glob_digit in H as (d2 & s4 & -> & Hd2 & H).
    apply glob_star in H as (b & s5 & -> & H).
    apply glob_lit in H as (s6 & -> & H).
    apply glob_digit in H as (d3 & c & -> & Hd3 & _).
    by exists d1, d2, d3, a, b, c.
  - intros (d1 & d2 & d3 & a & b & c & Hd1 & Hd2 & Hd3 & ->).
    eexists _, _. split; [done |]. split; [done |].
    apply glob_star. eexists _, _. split; [done |].
    apply glob_lit. eexists. split; [done |].
    apply glob_digit. eexists _, _. split; [done |]. split; [done |].
    apply glob_star. eexists _, _. split; [done |].
    apply glob_lit. eexists. split; [done |].
    apply glob_digit. eexists _, _. split; [done |]. split; [done |].
    apply glob_star_end.
Qed.

Lemma last_bump_cons (arg : string) (args : list string) (cur : string) :
  last_bump (arg :: args) cur
  = last_bump args (if is_bump arg then arg else cur).
Proof. done. Qed.

(** One pass through the [case]. *)
Lemma case_arg_spec (o : Options) (arg : string) :
  case_arg o arg
  = if is_flag arg || is_bump arg
    then Continue
           {| NO_PUSH := if bool_decide (arg = "--no-push") then "1"
                         else NO_PUSH o;
              NO_CHANGELOG := if bool_decide (arg = "--no-changelog") then "1"
                              else NO_CHANGELOG o;
              NO_RELEASE := if bool_decide (arg = "--no-release") then "1"
                            else NO_RELEASE o;
              BUMP := if is_bump arg then arg else BUMP o |}
    else Exit 1.
Proof.
  unfold case_arg, is_flag.
  destruct (decide (arg = "--no-push")) as [-> | Hpush]; [done |].
  rewrite (bool_decide_eq_false_2 (arg = "--no-push")) by done.
  destruct (decide (arg = "--no-changelog")) as [-> | Hlog]; [done |].
  rewrite (bool_decide_eq_false_2 (arg = "--no-changelog")) by done.
  destruct (decide (arg = "--no-release")) as [-> | Hrel]; [done |].
  rewrite (bool_decide_eq_false_2 (arg = "--no-release")) by done.
  unfold is_bump. generalize (glob_match version_glob arg). intros g.
  by destruct (bool_decide (arg = "patch") || bool_decide (arg = "minor")
               || bool_decide (arg = "major")), g.
Qed.

Lemma flag_cons (name arg : string) (args : list string) (x : string) :
  (if bool_decide (name ∈ args) then "1"
   else if bool_decide (arg = name) then "1" else x)
  = if bool_decide (name ∈ arg :: args) then "1" else x.
Proof.
  destruct (decide (name ∈ args)) as [Hin|Hin].
  - rewrite (bool_decide_eq_true_2 (name ∈ args)) by done.
    by rewrite (bool_decide_eq_true_2 (name ∈ arg :: args)) by by right.
  - rewrite (bool_decide_eq_false_2 (name ∈ args)) by done.
    destruct (decide (arg = name)) as [-> | Hne].
    + rewrite (bool_decide_eq_true_2 (name = name)) by done.
      by rewrite (bool_decide_eq_true_2 (name ∈ name :: args)) by by left.
    + rewrite (bool_decide_eq_false_2 (arg = name)) by done.
      rewrite (bool_decide_eq_false_2 (name ∈ arg :: args)); [done |].
      rewrite elem_of_cons. intros [-> | ?]; done.
Qed.

(** The loop from any state of the four variables. *)
Lemma for_args_spec (args : list string) (o : Options) :
  for_args args o
  = if forallb (λ arg, is_flag arg || is_bump arg) args
    then Continue
           {| NO_PUSH := if bool_decide ("--no-push" ∈ args) then "1"
                         else NO_PUSH o;
              NO_CHANGELOG := if bool_decide ("--no-changelog" ∈ args) then "1"
                              else NO_CHANGELOG o;
              NO_RELEASE := if bool_decide ("--no-release" ∈ args) then "1"
                            else NO_RELEASE o;
              BUMP := last_bump args (BUMP o) |}
    else Exit 1.
Proof.
  revert o. induction args as [|arg args IH]; intros o.
  { by destruct o. }
  cbn [for_args forallb]. rewrite last_bump_cons, case_arg_spec.
  destruct (is_flag arg || is_bump arg); [|done].
  rewrite IH. simpl andb. destruct (forallb _ args); [|done].
  cbn [NO_PUSH NO_CHANGELOG NO_RELEASE BUMP].
  by rewrite !flag_cons.
Qed.

(** Without a bump among the arguments [BUMP] keeps its value, and a bump
    is never the empty string. *)
Lemma last_bump_none (args : list string) (cur : string) :
  existsb is_bump args = false → last_bump args cur = cur.
Proof.
  revert cur. induction args as [|arg args IH]; intros cur; [done |].
  cbn [existsb]. intros [Harg Hrest]%orb_false_iff.
  rewrite last_bump_cons, Harg. by apply IH.
Qed.

Lemma last_bump_nonempty (args : list string) (cur : string) :
  cur ≠ "" ∨ existsb is_bump args = true → last_bump args cur ≠ "".
Proof.
  revert cur. induction args as [|arg args IH]; intros cur.
  { intros [? | ?]; done. }
  cbn [existsb]. rewrite last_bump_cons. intros Hcur. apply IH.
  destruct (is_bump arg) eqn:Harg.
  - left. intros ->. by vm_compute in Harg.
  - destruct Hcur as [? | ?]; [by left | by right].
Qed.

(** X11. The command line of the release script.  The script gets past
    its argument check exactly when every argument is one of the three
    flags or a bump ([patch], [minor], [major] or a version) and at least
    one is a bump; then each flag variable is ["1"] when its flag occurs
    anywhere and empty otherwise, and [BUMP] is the last bump given.  In
    every other case (an argument it does not know, anywhere in the list,
    or no bump) it prints the usage and exits 1. *)
Theorem parse_arguments_spec (args : list string) :
  parse_arguments args
  = if forallb (λ arg, is_flag arg || is_bump arg) args
       && existsb is_bump args
    then Continue {| NO_PUSH := flag "--no-push" args;
                     NO_CHANGELOG := flag "--no-changelog" args;
                     NO_RELEASE := flag "--no-release" args;
                     BUMP := last_bump args "" |}
    else Exit 1.
Proof.
  unfold parse_arguments. rewrite for_args_spec. cbn [NO_PUSH NO_CHANGELOG
    NO_RELEASE BUMP].
  destruct (forallb _ args); [|done]. simpl andb.
  destruct (existsb is_bump args) eqn:Hbump.
  - rewrite bool_decide_eq_true_2; [done |].
    apply last_bump_nonempty. by right.
  - by rewrite last_bump_none.
Qed.

(** * The further properties at sample inputs *)

(** Three runnables: [-0] is index 0, 25 digits with leading zeros are
    read by [ParseInt], [-1] is refused. *)
Lemma trigger_accepts_numerals_witness :
  serve [] [10; 11; 12]%nat (Samples.post "/api/jobs/-0")
  = Some (acceptedResponse, [10%nat])
  ∧ serve [] [10; 11; 12]%nat
      (Samples.post "/api/jobs/0000000000000000000000002/run")
    = Some (acceptedResponse, [12%nat])
  ∧ serve [] [10; 11; 12]%nat (Samples.post "/api/jobs/-1")
    = Some (errorResponse "invalid job index" StatusBadRequest, []).
Proof.
  assert (Z.of_nat (length [10; 11; 12]%nat) ≤ 2 ^ 63) as Hlen
    by (vm_compute; discriminate).
  assert (0 ≤ 0 < Z.of_nat (length [10; 11; 12]%nat)) as H0
    by (split; [lia | reflexivity]).
  assert (0 ≤ 2 < Z.of_nat (length [10; 11; 12]%nat)) as H2
    by (split; [lia | reflexivity]).
  split; [|split].
  - destruct (trigger_accepts_numerals [] [10; 11; 12]%nat
                (Samples.post "/api/jobs/-0") eq_refl eq_refl Hlen)
      as [Hok _].
    destruct (Hok 0 eq_refl H0) as (_ & f & Hf & Hserve).
    injection Hf as <-. exact Hserve.
  - destruct (trigger_accepts_numerals [] [10; 11; 12]%nat
                (Samples.post "/api/jobs/0000000000000000000000002/run")
                eq_refl eq_refl Hlen) as [Hok _].
    destruct (Hok 2 eq_refl H2) as (_ & f & Hf & Hserve).
    injection Hf as <-. exact Hserve.
  - destruct (trigger_accepts_numerals [] [10; 11; 12]%nat
                (Samples.post "/api/jobs/-1") eq_refl eq_refl Hlen)
      as [_ Hbad].
    apply (Hbad eq_refl). right. exists (-1).
    split; [reflexivity | left; lia].
Defined.

(** No runnables: [POST /api/jobs/0]. *)
Lemma no_runnables_no_trigger_witness :
  serve [Samples.nightly] ([] : list nat) (Samples.post "/api/jobs/0")
  = Some (errorResponse "invalid job index" StatusBadRequest, []).
Proof.
  exact (no_runnables_no_trigger [Samples.nightly]
           (Samples.post "/api/jobs/0") eq_refl eq_refl eq_refl).
Defined.

(** [POST /api/jobs/1/run] and [POST /api/jobs/1]. *)
Lemma run_suffix_alias_witness :
  serve [] [10; 11]%nat {| Method := "POST"; URLPath := "/api/jobs/1/run" |}
  = serve [] [10; 11]%nat {| Method := "POST"; URLPath := "/api/jobs/1" |}.
Proof.
  exact (run_suffix_alias [] [10; 11]%nat "POST" "1" eq_refl eq_refl eq_refl).
Defined.

(** Three jobs listed, two runnables: the button of the second job starts
    runnable 1, the button of the third is refused. *)
Lemma dashboard_run_now_witness :
  serve [Samples.nightly; Samples.cleanup; Samples.idle] [10; 11]%nat
    (Dashboard.runNow 1) = Some (acceptedResponse, [11%nat])
  ∧ serve [Samples.nightly; Samples.cleanup; Samples.idle] [10; 11]%nat
      (Dashboard.runNow 2)
    = Some (errorResponse "invalid job index" StatusBadRequest, []).
Proof.
  destruct (dashboard_run_now [Samples.nightly; Samples.cleanup; Samples.idle]
              [10; 11]%nat) as (arr & Hserve & Hbutton).
  rewrite serve_listing in Hserve by reflexivity.
  unfold listingResponse in Hserve. injection Hserve as <-.
  assert (Z.of_nat 1 < 2 ^ 53) as H1 by reflexivity.
  assert (Z.of_nat 2 < 2 ^ 53) as H2 by reflexivity.
  split.
  - exact (Hbutton 1%nat _ 1 eq_refl eq_refl H1).
  - exact (Hbutton 2%nat _ 2 eq_refl eq_refl H2).
Defined.

(** A job with both a run line and a command. *)
Lemma listing_object_shape_witness :
  ∃ (arr : list JSON.Value) (fields : list (string * JSON.Value)),
    serve [{| Config.Name := "Both"; Config.Schedule := "@daily";
              Config.Command := "sync"; Config.Run := "echo hi" |}]
      ([] : list nat) getJobs = Some (listingResponse arr, [])
    ∧ arr !! 0%nat = Some (JSON.Object fields)
    ∧ fields.*1 = ["index"; "name"; "schedule"; "run"; "type"]
    ∧ JSON.assoc "type" fields = Some (JSON.Str "run").
Proof.
  destruct (listing_object_shape
              [{| Config.Name := "Both"; Config.Schedule := "@daily";
                  Config.Command := "sync"; Config.Run := "echo hi" |}]
              ([] : list nat)) as (arr & Hserve & Hshape).
  destruct (Hshape 0%nat _ eq_refl) as (fields & Hk & Hkeys & _ & Htype).
  exists arr, fields. split; [exact Hserve |]. split; [exact Hk |].
  split; [exact Hkeys | exact Htype].
Defined.

(** [1.2.3-rc1] is taken for a version, [1.2] is not. *)
Lemma version_glob_spec_witness :
  glob_match version_glob "1.2.3-rc1" = true
  ∧ glob_match version_glob "1.2" = false.
Proof.
  split; [|reflexivity].
  apply (version_glob_spec "1.2.3-rc1").
  exists "1"%char, "2"%char, "3"%char, "", "", "-rc1".
  repeat split.
Defined.

(** [PUT /api/jobs/1] reaches the trigger handler. *)
Lemma status_codes_documented_witness :
  ∃ (resp : Response) (gs : list nat),
    serve [Samples.nightly; Samples.cleanup] [10; 11]%nat
      {| Method := "PUT"; URLPath := "/api/jobs/1" |} = Some (resp, gs)
    ∧ StatusCode resp ∈ [200; 202; 400; 404; 405].
Proof.
  exact (status_codes_documented [Samples.nightly; Samples.cleanup]
           [10; 11]%nat {| Method := "PUT"; URLPath := "/api/jobs/1" |}
           eq_refl).
Defined.

(** [POST /api/jobs/9] with two runnables is a 400, and it says so. *)
Lemma status_identifies_route_witness :
  HasPrefix "/api/jobs/9" "/api/jobs/" = true
  ∧ serve [Samples.nightly; Samples.cleanup] [10; 11]%nat
      (Samples.post "/api/jobs/9")
    = Some (errorResponse "invalid job index" StatusBadRequest, []).
Proof.
  destruct (status_identifies_route [Samples.nightly; Samples.cleanup]
              [10; 11]%nat (Samples.post "/api/jobs/9") eq_refl)
    as (resp & gs & Hserve & _ & H400 & _).
  assert (serve [Samples.nightly; Samples.cleanup] [10; 11]%nat
            (Samples.post "/api/jobs/9")
          = Some (errorResponse "invalid job index" StatusBadRequest, []))
    as Hcomputed by reflexivity.
  split; [|exact Hcomputed].
  rewrite Hcomputed in Hserve. injection Hserve as <- <-.
  exact (proj1 (H400 eq_refl)).
Defined.

(** [HEAD /jobs]: the headers of the page, no body. *)
Lemma body_has_content_type_witness :
  ∃ resp : Response,
    serve [Samples.nightly] [10]%nat {| Method := "HEAD"; URLPath := "/jobs" |}
    = Some (resp, [])
    ∧ is_Some (Header resp !! "Content-Type")
    ∧ Body resp = [].
Proof.
  destruct (body_has_content_type [Samples.nightly] [10]%nat
              {| Method := "HEAD"; URLPath := "/jobs" |} eq_refl)
    as (resp & gs & Hserve & Hcases).
  assert (serve [Samples.nightly] [10]%nat
            {| Method := "HEAD"; URLPath := "/jobs" |}
          = Some (onHead "HEAD" pageResponse, [])) as Hcomputed
    by reflexivity.
  rewrite Hcomputed in Hserve. injection Hserve as <- <-.
  exists (onHead "HEAD" pageResponse). split; [exact Hcomputed |].
  destruct Hcases as [[_ Hbare] | [Htype Hbody]]; [discriminate Hbare |].
  split; [exact Htype | exact (proj2 Hbody eq_refl)].
Defined.
